(** * The bot panel (src/panel.js): a shallow embedding and its properties

    The panel is an Express application that keeps one child process per
    uploaded bot.  Its state is the object [runningBots], the file
    [bots.json], the directory [bots/] and the child processes with their
    ['close'] listeners.  Every synchronous handler runs to completion, so a
    handler is a function from states to states and responses; process exits
    and elapsed timers are further events of the same transition system. *)

From stdpp Require Import gmap strings list fin_maps pretty.

Set Warnings "-register-all".
Open Scope string_scope.

(** ** JavaScript objects used as maps *)

Module Js.

(** The property names every plain object inherits from
    [Object.prototype].  [obj[k]] finds them when [obj] has no own
    property [k], and what it finds is a function or an object, hence
    truthy. *)
Definition object_prototype_keys : list string :=
  [ "constructor"; "__defineGetter__"; "__defineSetter__"; "hasOwnProperty";
    "__lookupGetter__"; "__lookupSetter__"; "isPrototypeOf";
    "propertyIsEnumerable"; "toString"; "valueOf"; "__proto__";
    "toLocaleString" ].

Definition inherited (k : string) : bool :=
  bool_decide (k ∈ object_prototype_keys).

(** A string is falsy exactly when it is empty. *)
Definition truthy (v : string) : bool :=
  negb (bool_decide (v = EmptyString)).

(** Truthiness of [obj[k]] for an object whose own values are objects
    (process handles, bot records). *)
Definition has {V} (obj : gmap string V) (k : string) : bool :=
  match obj !! k with
  | Some _ => true
  | None => inherited k
  end.

(** Truthiness of [obj[k]] for an object whose own values are strings. *)
Definition has_string (obj : gmap string string) (k : string) : bool :=
  match obj !! k with
  | Some v => truthy v
  | None => inherited k
  end.

(** [obj[k] = v] for a string [v] on an object parsed from JSON text
    written by the panel: the name [__proto__] reaches the prototype
    setter, which ignores a value that is not an object. *)
Definition assign (k v : string) (obj : gmap string string)
  : gmap string string :=
  if decide (k = "__proto__") then obj else <[k:=v]> obj.

(** [{ ...base, ...over }]: the own properties of [base], then those of
    [over] written on top. *)
Definition spread (base over : gmap string string) : gmap string string :=
  over ∪ base.

End Js.

(** ** The directory of a bot *)

(** What the panel reads from a file: whether it is JSON text of an object,
    and then the string of its [main] field if it has one. *)
Inductive content :=
  | Manifest (main : option string)
  | Blob.

Inductive node :=
  | File (c : content)
  | Dir (entries : gmap string node).

Abbreviation dir := (gmap string node).

Inductive errno := ENOENT | ENOTDIR | EISDIR | ENOTEMPTY.

Definition errno_name (e : errno) : string :=
  match e with
  | ENOENT => "ENOENT"
  | ENOTDIR => "ENOTDIR"
  | EISDIR => "EISDIR"
  | ENOTEMPTY => "ENOTEMPTY"
  end.

Module Fs.

(** [fs.promises.readdir]: the names of the entries.  The file system
    lists them in an order of its own; here it is the map's, and the
    properties of the promotion loop below do not depend on it. *)
Definition readdir (d : dir) : list string := (map_to_list d).*1.

Definition is_empty (d : dir) : bool := bool_decide (size d = 0).

(** [fs.existsSync(path.join(botPath, f))]; [None] is a [botPath] that
    does not exist. *)
Definition existsSync (botPath : option dir) (f : string) : bool :=
  match botPath with
  | Some d => match d !! f with Some _ => true | None => false end
  | None => false
  end.

(** [fs.promises.rename(path.join(p, w, f), path.join(p, f))] on the
    directory [d] at [p], as rename(2) does it: a target that is the
    directory holding the source is refused with ENOTEMPTY; otherwise a
    file replaces a file, a directory replaces an empty directory, and
    nothing else is replaced. *)
Definition rename_up (w f : string) (d : dir) : errno + dir :=
  match d !! w with
  | Some (Dir nested) =>
      match nested !! f with
      | None => inl ENOENT
      | Some n =>
          if decide (f = w) then inl ENOTEMPTY
          else
            let moved := <[f:=n]> (<[w:=Dir (delete f nested)]> d) in
            match d !! f, n with
            | None, _ => inr moved
            | Some (File _), File _ => inr moved
            | Some (File _), Dir _ => inl ENOTDIR
            | Some (Dir _), File _ => inl EISDIR
            | Some (Dir old), Dir _ =>
                if is_empty old then inr moved else inl ENOTEMPTY
            end
      end
  | Some (File _) => inl ENOTDIR
  | None => inl ENOENT
  end.

(** [fs.promises.rmdir(path.join(p, w))]. *)
Definition rmdir (w : string) (d : dir) : errno + dir :=
  match d !! w with
  | Some (Dir nested) =>
      if is_empty nested then inr (delete w d) else inl ENOTEMPTY
  | Some (File _) => inl ENOTDIR
  | None => inl ENOENT
  end.

End Fs.

(** ** Upload: the nested-directory fix (panel.js, lines 119-131) *)

(** [files.length === 1] and [stat(nestedPath).isDirectory()]. *)
Definition wrapper_of (d : dir) : option (string * dir) :=
  match Fs.readdir d with
  | [w] => match d !! w with
           | Some (Dir nested) => Some (w, nested)
           | _ => None
           end
  | _ => None
  end.

(** The [for (const file of nestedFiles)] loop; a rename that throws leaves
    the loop with the directory as it is then. *)
Fixpoint promote (w : string) (nestedFiles : list string) (d : dir)
  : dir * option errno :=
  match nestedFiles with
  | [] => (d, None)
  | file :: rest =>
      match Fs.rename_up w file d with
      | inl e => (d, Some e)
      | inr d' => promote w rest d'
      end
  end.

Definition auto_fix (d : dir) : dir * option errno :=
  match wrapper_of d with
  | Some (w, nested) =>
      match promote w (Fs.readdir nested) d with
      | (d', Some e) => (d', Some e)
      | (d', None) =>
          match Fs.rmdir w d' with
          | inl e => (d', Some e)
          | inr d'' => (d'', None)
          end
      end
  | None => (d, None)
  end.

(** ** getMainScript (panel.js, lines 152-163) *)

(** [JSON.parse(fs.readFileSync(packageJsonPath)).main], [None] when the
    read or the parse throws (the [catch] ignores it) or there is no
    [main]. *)
Definition manifest_main (botPath : option dir) : option string :=
  match botPath with
  | Some d =>
      match d !! "package.json" with
      | Some (File (Manifest main)) => main
      | _ => None
      end
  | None => None
  end.

Definition getMainScript (botPath : option dir) : option string :=
  let declared :=
    if Fs.existsSync botPath "package.json" then
      match manifest_main botPath with
      | Some main => if Js.truthy main then Some main else None
      | None => None
      end
    else None in
  match declared with
  | Some main => Some main
  | None =>
      if Fs.existsSync botPath "index.js" then Some "index.js"
      else if Fs.existsSync botPath "bot.js" then Some "bot.js"
      else None
  end.

(** ** Child processes, requests and the state of the panel *)

(** The ['close'] listeners of a child: the one [/api/start] registers with
    [on], and the ones [/api/restart] registers with [once]; both close over
    the bot's name (the second through [req]). *)
Inductive listener :=
  | StartCleanup (botname : string)
  | RestartOnce (botname : string).

Record process := Process {
  p_script : string;
  p_cwd : string;
  p_env : gmap string string;
  p_kills : nat;
  p_exited : bool;
  p_close : list listener
}.

Inductive emission :=
  | Log (botname message : string)
  | StatusUpdate.

Record upload := Upload {
  up_name : string;
  up_archive : option dir
}.

Inductive request :=
  | ListBots
  | UploadBot (file : option upload)
  | StartBot (botname : string)
  | StopBot (botname : string)
  | RestartBot (botname : string)
  | InstallBot (botname : string)
  | DeleteBot (botname : string)
  | GetEnv (botname : string)
  | SetEnv (botname : string) (key value : option string)
  | DeleteEnv (botname : string) (key : option string).

Inductive status := Running | Stopped.

Inductive response :=
  | Send (code : nat) (body : string)
  | JsonBots (bots : list (string * status))
  | JsonEnv (env : gmap string string)
  | Redirect (location : string)
  | NoResponse
  | Uncaught (error : string)
  | StackExhausted.

(** [runningBots] maps a name to a process handle, here the index of the
    child in [children], which keeps every child ever spawned.  [bots_json]
    is [db.bots] with each record [{ env }] as its [env].  [bots_dir] is the
    directory [bots/]: it maps a name to the directory at
    [path.join(BOTS_PATH, name)].  For a name that is one path segment that
    is the entry of that name in [bots/]; for [.], [..] or a name with a
    separator the path is [bots/] itself, or lies outside it or inside
    another entry, and the map does not relate it to the other entries:
    what is said below about the directories of other units is said for
    names that are one segment.  [timers] are the pending [setTimeout] callbacks of
    [/api/restart] (each closes over a request for that route, kept as its
    bot name), [noop_routes] the routes registered after start-up. *)
Record state := State {
  runningBots : gmap string nat;
  bots_json : gmap string (gmap string string);
  bots_dir : gmap string dir;
  process_env : gmap string string;
  children : list process;
  timers : list string;
  noop_routes : nat;
  npm_installs : list string;
  emitted : list emission
}.

Definition set_runningBots (f : gmap string nat → gmap string nat) (s : state) : state :=
  State (f (runningBots s)) (bots_json s) (bots_dir s) (process_env s)
        (children s) (timers s) (noop_routes s) (npm_installs s) (emitted s).

Definition set_bots_json
  (f : gmap string (gmap string string) → gmap string (gmap string string))
  (s : state) : state :=
  State (runningBots s) (f (bots_json s)) (bots_dir s) (process_env s)
        (children s) (timers s) (noop_routes s) (npm_installs s) (emitted s).

Definition set_bots_dir (f : gmap string dir → gmap string dir) (s : state) : state :=
  State (runningBots s) (bots_json s) (f (bots_dir s)) (process_env s)
        (children s) (timers s) (noop_routes s) (npm_installs s) (emitted s).

Definition set_children (f : list process → list process) (s : state) : state :=
  State (runningBots s) (bots_json s) (bots_dir s) (process_env s)
        (f (children s)) (timers s) (noop_routes s) (npm_installs s) (emitted s).

Definition set_timers (f : list string → list string) (s : state) : state :=
  State (runningBots s) (bots_json s) (bots_dir s) (process_env s)
        (children s) (f (timers s)) (noop_routes s) (npm_installs s) (emitted s).

Definition add_route (s : state) : state :=
  State (runningBots s) (bots_json s) (bots_dir s) (process_env s)
        (children s) (timers s) (S (noop_routes s)) (npm_installs s) (emitted s).

Definition add_install (botname : string) (s : state) : state :=
  State (runningBots s) (bots_json s) (bots_dir s) (process_env s)
        (children s) (timers s) (noop_routes s) (npm_installs s ++ [botname])
        (emitted s).

Definition emit (es : list emission) (s : state) : state :=
  State (runningBots s) (bots_json s) (bots_dir s) (process_env s)
        (children s) (timers s) (noop_routes s) (npm_installs s)
        (emitted s ++ es).

(** [sendLog(io, botname, message)] (lines 74-78) and
    [io.emit('status_update')]. *)
Definition sendLog (botname message : string) (s : state) : state :=
  emit [Log botname message] s.

Definition status_update (s : state) : state := emit [StatusUpdate] s.

(** [readDb()] gives [db.bots] as the file has it; [writeDb(db)] replaces
    it. *)
Abbreviation readDb := bots_json.

Definition writeDb (bots : gmap string (gmap string string)) (s : state) : state :=
  set_bots_json (λ _, bots) s.

(** [child.kill()]: one more termination request; the exit is a later
    event, if it comes. *)
Definition kill (pid : nat) (s : state) : state :=
  set_children
    (alter (λ p, Process (p_script p) (p_cwd p) (p_env p) (S (p_kills p))
                         (p_exited p) (p_close p)) pid) s.

Definition add_listener (pid : nat) (l : listener) (s : state) : state :=
  set_children
    (alter (λ p, Process (p_script p) (p_cwd p) (p_env p) (p_kills p)
                         (p_exited p) (p_close p ++ [l])) pid) s.

(** [spawn('node', [mainScript], { cwd: botPath, env })]. *)
Definition spawn (script cwd : string) (env : gmap string string) : process :=
  Process script cwd env 0 false [].

(** ** The route handlers *)

(** GET /api/bots (lines 86-93).  [Object.keys(db.bots)] is taken in the
    map's order; the properties below do not depend on the order. *)
Definition status_of (s : state) (botName : string) : status :=
  if Js.has (runningBots s) botName then Running else Stopped.

Definition api_bots (s : state) : list (string * status) :=
  let db := readDb s in
  (λ botName, (botName, status_of s botName)) <$> (map_to_list db).*1.

(** POST /api/upload (lines 96-148), run from its first line to its
    response with no other event between its [await]s.  The request carries
    the bot name ([path.basename] of the file name without [.zip]) and what
    [extract] unpacks into the fresh directory; [None] for an archive on
    which [extract] throws, which leaves the directory created and, here,
    empty. *)

(** Lines 104-109: an inherited name passes the test and has no [kill],
    which throws into the handler's [catch]. *)
Definition stop_for_upgrade (botName : string) (s : state) : option state :=
  if Js.has (runningBots s) botName then
    match runningBots s !! botName with
    | Some pid =>
        Some (sendLog botName "--- Bot stopped for upgrade... ---"
                (set_runningBots (delete botName) (kill pid s)))
    | None => None
    end
  else Some s.

(** Lines 133-138. *)
Definition register (botName : string) (s : state) : state :=
  let db := readDb s in
  if negb (Js.has db botName) then writeDb (<[botName:=∅]> db) s
  else writeDb db s.

(** Lines 143-147, the [catch]. *)
Definition upload_failed (botName message : string) (s : state)
  : state * response :=
  (sendLog botName ("--- Error uploading " +:+ botName +:+ ": " +:+ message +:+ " ---") s,
   Send 500 "Error processing upload.").

Definition api_upload (file : option upload) (s : state) : state * response :=
  match file with
  | None => (s, Send 400 "No file uploaded.")
  | Some f =>
      let botName := up_name f in
      match stop_for_upgrade botName s with
      | None =>
          upload_failed botName "runningBots[botName].kill is not a function" s
      | Some s1 =>
          match up_archive f with
          | None =>
              upload_failed botName "extract failed"
                (set_bots_dir <[botName:=∅]> s1)
          | Some extracted =>
              let s2 :=
                match wrapper_of extracted with
                | Some _ =>
                    sendLog botName "--- Nested directory detected. Promoting contents... ---" s1
                | None => s1
                end in
              match auto_fix extracted with
              | (d, Some e) =>
                  upload_failed botName (errno_name e)
                    (set_bots_dir <[botName:=d]> s2)
              | (d, None) =>
                  (status_update
                     (sendLog botName ("--- " +:+ botName +:+ " uploaded/upgraded successfully. ---")
                        (register botName (set_bots_dir <[botName:=d]> s2))),
                   Redirect "/")
              end
          end
      end
  end.

(** GET /api/start/:botname (lines 166-203). *)
Definition api_start (botname : string) (s : state) : state * response :=
  if Js.has (runningBots s) botname then (s, Send 400 "Bot is already running.")
  else
    let botPath := bots_dir s !! botname in
    match getMainScript botPath with
    | None => (s, Send 404 "Bot main script not found.")
    | Some mainScript =>
        let db := readDb s in
        let botEnv := default ∅ (db !! botname) in
        let env := Js.spread (process_env s) botEnv in
        let botProcess := length (children s) in
        let s1 := set_children (λ ps, (ps ++ [spawn mainScript botname env])%list) s in
        let s2 := set_runningBots <[botname:=botProcess]> s1 in
        let s3 := add_listener botProcess (StartCleanup botname) s2 in
        (status_update (sendLog botname "--- starting... ---" s3),
         Send 200 "Bot started")
    end.

(** GET /api/stop/:botname (lines 206-212). *)
Definition api_stop (botname : string) (s : state) : state * response :=
  if negb (Js.has (runningBots s) botname) then (s, Send 400 "Bot is not running.")
  else
    match runningBots s !! botname with
    | Some pid =>
        (sendLog botname "--- stopping... ---" (kill pid s), Send 200 "Bot stopping")
    | None => (s, Uncaught "runningBots[botname].kill is not a function")
    end.

(** GET /api/install/:botname (lines 228-244), up to its response: the
    spawned [npm install] is recorded in [npm_installs]; what it writes
    into the unit's directory afterwards and the log line of its ['close']
    are not events of this model. *)
Definition dq : string := String (Ascii.ascii_of_nat 34) EmptyString.

Definition api_install (botname : string) (s : state) : state * response :=
  if Js.has (runningBots s) botname then (s, Send 400 "Bot is running. Stop it first.")
  else if negb (Fs.existsSync (bots_dir s !! botname) "package.json") then
    (s, Send 400 "No package.json found.")
  else
    (add_install botname
       (sendLog botname ("--- Running " +:+ dq +:+ "npm install" +:+ dq +:+ "... ---") s),
     Send 200 "Install process started.").

(** GET /api/delete/:botname (lines 247-269), with an [rm] that does not
    throw, run from its first line to its response with no other event
    while it awaits the [rm]. *)
Definition api_delete (botname : string) (s : state) : state * response :=
  if Js.has (runningBots s) botname then (s, Send 400 "Bot is running. Stop it first.")
  else
    let db := readDb s in
    let s1 := set_bots_dir (delete botname) s in
    let s2 := if Js.has db botname then writeDb (delete botname db) s1 else s1 in
    (status_update (sendLog botname "--- Bot project deleted successfully. ---" s2),
     Send 200 "Bot deleted").

(** GET /api/env/:botname (lines 272-279). *)
Definition api_env_get (botname : string) (s : state) : response :=
  match readDb s !! botname with
  | Some env => JsonEnv env
  | None => if Js.inherited botname then JsonEnv ∅ else Send 404 "Bot not found"
  end.

(** POST /api/env/:botname (lines 281-299).  [None] is a field the body
    does not have. *)
Definition api_env_set (botname : string) (key value : option string) (s : state)
  : state * response :=
  match key, value with
  | Some k, Some v =>
      if negb (Js.truthy k) then (s, Send 400 "Key and Value are required.")
      else
        let db := readDb s in
        match db !! botname with
        | Some env =>
            (sendLog botname ("--- Env variable [" +:+ k +:+ "] added/updated. ---")
               (writeDb (<[botname:=Js.assign k v env]> db) s),
             Send 200 "Variable saved.")
        | None =>
            if Js.inherited botname
            then (s, Uncaught "Cannot set properties of undefined")
            else (s, Send 404 "Bot not found")
        end
  | _, _ => (s, Send 400 "Key and Value are required.")
  end.

(** POST /api/env/delete/:botname (lines 301-317). *)
Definition api_env_delete (botname : string) (key : option string) (s : state)
  : state * response :=
  match key with
  | Some k =>
      if negb (Js.truthy k) then (s, Send 400 "Key is required.")
      else
        let db := readDb s in
        match db !! botname with
        | Some env =>
            if negb (Js.has_string env k) then (s, Send 404 "Variable not found.")
            else
              (sendLog botname ("--- Env variable [" +:+ k +:+ "] deleted. ---")
                 (writeDb (<[botname:=delete k env]> db) s),
               Send 200 "Variable deleted.")
        | None =>
            if Js.inherited botname
            then (s, Uncaught "Cannot read properties of undefined")
            else (s, Send 404 "Variable not found.")
        end
  | None => (s, Send 400 "Key is required.")
  end.

(** GET /api/restart/:botname (lines 215-225), and the application.

    [app.get(path, callback)] with two arguments registers one more route
    for [path] and returns [app]; applying [app] to [(req, res)] dispatches
    [req] by its own method and URL.  So
    [app.get('/api/start/:botname', () => {})(req, res)] appends a route
    that nothing reaches and dispatches the request for /api/restart once
    more, on top of the caller's stack.  [depth] bounds how many such
    dispatches nest before the engine's stack is exhausted. *)
Definition restart_running (pid : nat) (botname : string) (s : state) : state :=
  kill pid (add_listener pid (RestartOnce botname) s).

Definition redispatch (app : option (state → state * response)) (s : state)
  : state * response :=
  match app with
  | Some dispatch => dispatch (add_route s)
  | None => (add_route s, StackExhausted)
  end.

Fixpoint handle (depth : nat) (r : request) (s : state) {struct depth}
  : state * response :=
  match r with
  | ListBots => (s, JsonBots (api_bots s))
  | UploadBot file => api_upload file s
  | StartBot botname => api_start botname s
  | StopBot botname => api_stop botname s
  | RestartBot botname =>
      if Js.has (runningBots s) botname then
        match runningBots s !! botname with
        | Some pid => (restart_running pid botname s, NoResponse)
        | None => (s, Uncaught "runningBots[botname].once is not a function")
        end
      else
        redispatch
          match depth with
          | 0 => None
          | S d => Some (handle d (RestartBot botname))
          end s
  | InstallBot botname => api_install botname s
  | DeleteBot botname => api_delete botname s
  | GetEnv botname => (s, api_env_get botname s)
  | SetEnv botname key value => api_env_set botname key value s
  | DeleteEnv botname key => api_env_delete botname key s
  end.

(** ** Events between requests *)

Definition show_code (code : option Z) : string :=
  match code with
  | Some c => pretty c
  | None => "null"
  end.

(** One ['close'] listener, as it runs when the child has exited. *)
Definition run_listener (code : option Z) (s : state) (l : listener) : state :=
  match l with
  | StartCleanup botname =>
      status_update
        (set_runningBots (delete botname)
           (sendLog botname ("--- stopped with code " +:+ show_code code +:+ " ---") s))
  | RestartOnce botname => set_timers (λ ts, (ts ++ [botname])%list) s
  end.

Definition persistent (l : listener) : bool :=
  match l with
  | StartCleanup _ => true
  | RestartOnce _ => false
  end.

(** The child [pid] exits, for whatever reason: its listeners run in the
    order of their registration, and the [once] ones are dropped. *)
Definition child_closed (pid : nat) (code : option Z) (s : state) : option state :=
  match children s !! pid with
  | Some p =>
      if p_exited p then None
      else
        let s1 :=
          set_children
            (alter (λ p, Process (p_script p) (p_cwd p) (p_env p) (p_kills p)
                                 true (filter (λ l, persistent l = true) (p_close p)))
                   pid) s in
        Some (foldl (run_listener code) s1 (p_close p))
  | None => None
  end.

(** The i-th pending timer of /api/restart elapses (line 219). *)
Definition timer_elapsed (depth : nat) (i : nat) (s : state)
  : option (state * response) :=
  match timers s !! i with
  | Some botname =>
      Some (redispatch (Some (handle depth (RestartBot botname)))
              (set_timers (delete i) s))
  | None => None
  end.

Inductive event :=
  | Request (r : request)
  | ChildClosed (pid : nat) (code : option Z)
  | TimerElapsed (i : nat).

Definition step (depth : nat) (e : event) (s : state) : option (state * response) :=
  match e with
  | Request r => Some (handle depth r s)
  | ChildClosed pid code => (λ s', (s', NoResponse)) <$> child_closed pid code s
  | TimerElapsed i => timer_elapsed depth i s
  end.

(** The first run: no child, an empty [bots.json]. *)
Definition initial (penv : gmap string string) (disk : gmap string dir) : state :=
  State ∅ ∅ disk penv [] [] 0 [] [].

Inductive reachable : state → Prop :=
  | reachable_initial penv disk : reachable (initial penv disk)
  | reachable_step depth e s s' r :
      reachable s → step depth e s = Some (s', r) → reachable s'.

(** Running a list of events, for closed examples. *)
Fixpoint run (depth : nat) (es : list event) (s : state) : option state :=
  match es with
  | [] => Some s
  | e :: rest =>
      match step depth e s with
      | Some (s', _) => run depth rest s'
      | None => None
      end
  end.

(** ** Invariants and observations *)

(** The overrides persisted for a unit: [db.bots[U].env], nothing for a
    unit the registry does not know. *)
Definition envOverrides (s : state) (U : string) : gmap string string :=
  default ∅ (bots_json s !! U).

(** The exit observers a child carries on behalf of /api/restart. *)
Definition restart_observers (p : process) : list listener :=
  filter (λ l, persistent l = false) (p_close p).

(** The parts of the state the invariants speak about. *)
Definition tables (s : state) : gmap string nat * gmap string (gmap string string) :=
  (runningBots s, bots_json s).

Definition shape (s : state) : gmap string nat * list process :=
  (runningBots s, children s).

(** No inherited property name is ever an own key of [runningBots] or of
    [db.bots], and no [env] has the empty key: every write to the tables is
    behind a truthiness test that an inherited name passes on the wrong
    side. *)
Definition names_ok (s : state) : Prop :=
  (∀ b pid, runningBots s !! b = Some pid → Js.inherited b = false) ∧
  (∀ b env, bots_json s !! b = Some env →
            Js.inherited b = false ∧ env !! EmptyString = None).

(** Every child carries the cleanup listener of the start that spawned it,
    followed by one [once] listener per restart requested since; an entry of
    [runningBots] points at a child of that name which has not exited. *)
Definition process_ok (p : process) : Prop :=
  ∃ k, p_close p = StartCleanup (p_cwd p) :: replicate k (RestartOnce (p_cwd p)).

Definition children_ok (s : state) : Prop :=
  (∀ pid p, children s !! pid = Some p → process_ok p) ∧
  (∀ b pid, runningBots s !! b = Some pid →
            ∃ p, children s !! pid = Some p ∧ p_cwd p = b ∧ p_exited p = false).

(** ** States used in the closed examples *)

Definition echo_archive : dir := {[ "index.js" := File Blob ]}.

Definition fresh : state := initial {[ "PATH" := "/usr/bin" ]} ∅.

Definition echo_uploaded : state :=
  (handle 0 (UploadBot (Some (Upload "echo-bot" (Some echo_archive)))) fresh).1.

Definition echo_running : state :=
  (handle 0 (StartBot "echo-bot") echo_uploaded).1.

Definition echo_configured : state :=
  (handle 0 (SetEnv "echo-bot" (Some "PATH") (Some "/opt/bot/bin")) echo_uploaded).1.

Definition echo_blank : state :=
  (handle 0 (SetEnv "echo-bot" (Some "TOKEN") (Some EmptyString)) echo_uploaded).1.

(** A unit whose manifest names a file that is not there, and one whose
    directory is empty. *)
Definition ghost_dir : dir :=
  {[ "package.json" := File (Manifest (Some "missing.js")) ]}.

Definition ghost_disk : state :=
  initial ∅ {[ "ghost" := ghost_dir; "hollow" := ∅ ]}.

(** my-bot.zip with my-bot/index.js and my-bot/my-bot/util.js. *)
Definition colliding_archive : dir :=
  {[ "my-bot" := Dir {[ "index.js" := File Blob;
                        "my-bot" := Dir {[ "util.js" := File Blob ]} ]} ]}.

(** The unit a request names, if it names one. *)
Definition subject (r : request) : option string :=
  match r with
  | ListBots => None
  | UploadBot file => up_name <$> file
  | StartBot botname | StopBot botname | RestartBot botname
  | InstallBot botname | DeleteBot botname | GetEnv botname
  | SetEnv botname _ _ | DeleteEnv botname _ => Some botname
  end.

(** echo-bot uploaded again while it runs, and started again: the first
    child has been asked to terminate and has not exited yet. *)
Definition echo_upgraded : state :=
  (handle 0 (StartBot "echo-bot")
     (handle 0 (UploadBot (Some (Upload "echo-bot" (Some echo_archive))))
        echo_running).1).1.

(** echo-bot running with two restarts requested. *)
Definition echo_restarting : state :=
  (handle 0 (RestartBot "echo-bot")
     (handle 0 (RestartBot "echo-bot") echo_running).1).1.

(** echo-bot restarted, exited and started again by hand before the timer
    of the restart elapses. *)
Definition echo_raced : state :=
  default fresh
    (run 0 [Request (RestartBot "echo-bot"); ChildClosed 0 (Some 0%Z);
            Request (StartBot "echo-bot")] echo_running).

(** A unit with a manifest that has no [main], next to both conventional
    scripts. *)
Definition plain_dir : dir :=
  {[ "package.json" := File (Manifest None);
     "index.js" := File Blob; "bot.js" := File Blob ]}.

(** A name that is one path segment: not empty, not [.] or [..], and
    without a separator, so that [path.join(BOTS_PATH, name)] is the entry
    of that name in [bots/]. *)
Fixpoint has_separator (name : string) : bool :=
  match name with
  | EmptyString => false
  | String c rest =>
      bool_decide (c = Ascii.ascii_of_nat 47)
      || bool_decide (c = Ascii.ascii_of_nat 92)
      || has_separator rest
  end.

Definition single_segment (name : string) : bool :=
  negb (bool_decide (name = EmptyString))
  && negb (bool_decide (name = "."))
  && negb (bool_decide (name = ".."))
  && negb (has_separator name).

(** odd.zip with the one entry index.js/index.js: a lone top-level
    directory named index.js that holds a file of its own name. *)
Definition nested_index_archive : dir :=
  {[ "index.js" := Dir {[ "index.js" := File Blob ]} ]}.

(** * Properties *)

Local Open Scope list_scope.

(** ** Objects as maps *)

Lemma has_own {V} (obj : gmap string V) k v : obj !! k = Some v → Js.has obj k = true.
Proof. unfold Js.has. by intros ->. Qed.

Lemma has_false {V} (obj : gmap string V) k :
  Js.has obj k = false → obj !! k = None ∧ Js.inherited k = false.
Proof. unfold Js.has. by destruct (obj !! k). Qed.

Lemma has_plain {V} (obj : gmap string V) k :
  Js.inherited k = false → Js.has obj k = true ↔ is_Some (obj !! k).
Proof.
  unfold Js.has. intros Hk. destruct (obj !! k) eqn:E.
  - split; eauto.
  - rewrite Hk. split; [done | by intros [? ?]].
Qed.

Lemma truthy_nonempty v : Js.truthy v = true ↔ v ≠ EmptyString.
Proof.
  unfold Js.truthy. case_bool_decide; simpl; split; done.
Qed.

Lemma spread_lookup base over k :
  Js.spread base over !! k =
  match over !! k with
  | Some v => Some v
  | None => base !! k
  end.
Proof.
  unfold Js.spread. rewrite lookup_union.
  destruct (over !! k), (base !! k); done.
Qed.

(** ** What a request, an exit and a timer leave alone *)

Lemma restart_running_frame pid botname s :
  tables (restart_running pid botname s) = tables s ∧
  length (children (restart_running pid botname s)) = length (children s).
Proof.
  unfold restart_running, kill, add_listener, set_children, tables. simpl.
  by rewrite !length_alter.
Qed.

(** /api/restart never spawns and never writes a table, however deep the
    dispatch nests. *)
Lemma handle_restart_frame depth botname s :
  tables (handle depth (RestartBot botname) s).1 = tables s ∧
  length (children (handle depth (RestartBot botname) s).1) = length (children s).
Proof.
  revert s. induction depth as [|d IH]; intros s; simpl.
  - destruct (Js.has (runningBots s) botname); [|done].
    destruct (runningBots s !! botname); [|done].
    apply restart_running_frame.
  - destruct (Js.has (runningBots s) botname).
    + destruct (runningBots s !! botname); [|done].
      apply restart_running_frame.
    + unfold redispatch. destruct (IH (add_route s)) as [-> ->]. done.
Qed.

(** On a bot that is not running, /api/restart ends with the stack
    exhausted, whatever the bound. *)
Lemma handle_restart_stopped depth botname s :
  Js.has (runningBots s) botname = false →
  (handle depth (RestartBot botname) s).2 = StackExhausted.
Proof.
  revert s. induction depth as [|d IH]; intros s Hs; simpl; rewrite Hs; [done|].
  unfold redispatch. apply IH. done.
Qed.

Lemma timer_elapsed_frame depth i s s' r :
  timer_elapsed depth i s = Some (s', r) →
  tables s' = tables s ∧ length (children s') = length (children s).
Proof.
  unfold timer_elapsed. destruct (timers s !! i) as [b|]; [|done].
  intros [= H]. unfold redispatch in H.
  destruct (handle_restart_frame depth b (add_route (set_timers (delete i) s)))
    as [Ht Hc].
  rewrite H in Ht, Hc. done.
Qed.

Lemma run_listeners_frame code ls s :
  bots_json (foldl (run_listener code) s ls) = bots_json s ∧
  children (foldl (run_listener code) s ls) = children s ∧
  ∀ b pid, runningBots (foldl (run_listener code) s ls) !! b = Some pid →
           runningBots s !! b = Some pid.
Proof.
  revert s. induction ls as [|l ls IH]; intros s; simpl; [done|].
  destruct (IH (run_listener code s l)) as (-> & -> & Hrb).
  split; [by destruct l|]. split; [by destruct l|].
  intros b pid H. apply Hrb in H. destruct l; simpl in H; [|done].
  apply lookup_delete_Some in H. tauto.
Qed.

(** ** Names in the two tables *)

Lemma names_ok_tables s s' : tables s' = tables s → names_ok s → names_ok s'.
Proof. unfold tables, names_ok. intros [= -> ->]. done. Qed.

Lemma names_ok_delete_running b s :
  names_ok s → names_ok (set_runningBots (delete b) s).
Proof.
  intros [Hrb Hdb]. split; [|done]. simpl. intros b' pid H.
  apply lookup_delete_Some in H as [_ H]. eauto.
Qed.

Lemma stop_for_upgrade_names botName s s1 :
  stop_for_upgrade botName s = Some s1 → names_ok s →
  names_ok s1 ∧ Js.inherited botName = false.
Proof.
  unfold stop_for_upgrade. intros H Hok.
  destruct (Js.has (runningBots s) botName) eqn:Hhas.
  - destruct (runningBots s !! botName) as [pid|] eqn:Hpid; [|done].
    injection H as <-. split; [|by eapply (proj1 Hok)].
    apply (names_ok_tables (set_runningBots (delete botName) s)); [done|].
    by apply names_ok_delete_running.
  - injection H as <-. split; [done|]. by apply has_false in Hhas as [_ ?].
Qed.

Lemma register_names botName s :
  Js.inherited botName = false → names_ok s → names_ok (register botName s).
Proof.
  unfold register. intros Hb [Hrb Hdb].
  destruct (Js.has (bots_json s) botName); [done|].
  split; [done|]. simpl. intros b env H.
  apply lookup_insert_Some in H as [[<- <-]|[_ H]]; [done|eauto].
Qed.

Lemma api_upload_names file s : names_ok s → names_ok (api_upload file s).1.
Proof.
  intros Hok. unfold api_upload. destruct file as [f|]; [|done].
  destruct (stop_for_upgrade (up_name f) s) as [s1|] eqn:Hstop; [|done].
  destruct (stop_for_upgrade_names _ _ _ Hstop Hok) as [Hok1 Hname].
  destruct (up_archive f) as [extracted|].
  - set (s2 := match wrapper_of extracted with Some _ => _ | None => s1 end).
    assert (names_ok s2) as Hok2 by (subst s2; by destruct (wrapper_of extracted)).
    destruct (auto_fix extracted) as [d [e|]].
    + by apply (names_ok_tables s2).
    + simpl. apply (names_ok_tables (register (up_name f) (set_bots_dir <[up_name f:=d]> s2))); [done|].
      apply register_names; [done|]. by apply (names_ok_tables s2).
  - by apply (names_ok_tables s1).
Qed.

Lemma api_start_names botname s : names_ok s → names_ok (api_start botname s).1.
Proof.
  intros Hok. unfold api_start.
  destruct (Js.has (runningBots s) botname) eqn:Hhas; [done|].
  destruct (getMainScript (bots_dir s !! botname)); [|done].
  apply has_false in Hhas as [_ Hname]. destruct Hok as [Hrb Hdb].
  split; [|done]. simpl. intros b pid H.
  apply lookup_insert_Some in H as [[<- _]|[_ H]]; eauto.
Qed.

Lemma api_env_set_names botname key value s :
  names_ok s → names_ok (api_env_set botname key value s).1.
Proof.
  intros Hok. unfold api_env_set.
  destruct key as [k|], value as [v|]; try done.
  destruct (Js.truthy k) eqn:Hk; [|done]. simpl.
  destruct (bots_json s !! botname) as [env|] eqn:Henv;
    [|by destruct (Js.inherited botname)].
  destruct Hok as [Hrb Hdb]. split; [done|]. simpl. intros b env' H.
  apply lookup_insert_Some in H as [[<- <-]|[_ H]]; [|eauto].
  destruct (Hdb _ _ Henv) as [? Hempty]. split; [done|].
  unfold Js.assign. case_decide; [done|].
  rewrite lookup_insert_ne; [done|]. by apply truthy_nonempty.
Qed.

Lemma api_env_delete_names botname key s :
  names_ok s → names_ok (api_env_delete botname key s).1.
Proof.
  intros Hok. unfold api_env_delete. destruct key as [k|]; [|done].
  destruct (Js.truthy k); [|done]. simpl.
  destruct (bots_json s !! botname) as [env|] eqn:Henv;
    [|by destruct (Js.inherited botname)].
  destruct (Js.has_string env k); [|done]. simpl.
  destruct Hok as [Hrb Hdb]. split; [done|]. simpl. intros b env' H.
  apply lookup_insert_Some in H as [[<- <-]|[_ H]]; [|eauto].
  destruct (Hdb _ _ Henv) as [? Hempty]. split; [done|].
  apply lookup_delete_None. by right.
Qed.

Lemma api_delete_names botname s : names_ok s → names_ok (api_delete botname s).1.
Proof.
  intros Hok. unfold api_delete.
  destruct (Js.has (runningBots s) botname); [done|].
  destruct (Js.has (bots_json s) botname); [|done].
  destruct Hok as [Hrb Hdb]. split; [done|]. simpl. intros b env H.
  apply lookup_delete_Some in H as [_ H]. eauto.
Qed.

Lemma handle_names depth r s : names_ok s → names_ok (handle depth r s).1.
Proof.
  intros Hok. destruct r.
  - by destruct depth.
  - destruct depth; by apply api_upload_names.
  - destruct depth; by apply api_start_names.
  - assert (names_ok (api_stop botname s).1); [|by destruct depth].
    unfold api_stop. destruct (Js.has (runningBots s) botname); [|done].
    by destruct (runningBots s !! botname).
  - eapply names_ok_tables; [|done]. apply handle_restart_frame.
  - assert (names_ok (api_install botname s).1); [|by destruct depth].
    unfold api_install. destruct (Js.has (runningBots s) botname); [done|].
    by destruct (negb _).
  - destruct depth; by apply api_delete_names.
  - by destruct depth.
  - destruct depth; by apply api_env_set_names.
  - destruct depth; by apply api_env_delete_names.
Qed.

Lemma step_names depth e s s' r :
  step depth e s = Some (s', r) → names_ok s → names_ok s'.
Proof.
  destruct e as [req|pid code|i]; simpl.
  - intros [= H] Hok. pose proof (handle_names depth req s Hok) as H'.
    by rewrite H in H'.
  - unfold child_closed. destruct (children s !! pid) as [p|]; [|done].
    destruct (p_exited p); [done|]. simpl. intros [= <- _] [Hrb Hdb].
    match goal with |- names_ok (foldl _ ?s1 ?ls) =>
      destruct (run_listeners_frame code ls s1) as (Hj & _ & Hr) end.
    split.
    + intros b pid' H. apply Hr in H. eauto.
    + rewrite Hj. done.
  - intros H Hok. apply timer_elapsed_frame in H as [H _].
    by apply (names_ok_tables s).
Qed.

Lemma reachable_names s : reachable s → names_ok s.
Proof.
  induction 1 as [penv disk|depth e s s' r _ IH Hstep].
  - split; intros ? ?; simpl; by rewrite lookup_empty.
  - by eapply step_names.
Qed.

Lemma run_reachable depth es s s' :
  reachable s → run depth es s = Some s' → reachable s'.
Proof.
  revert s. induction es as [|e es IH]; intros s Hs; simpl.
  - by intros [= <-].
  - destruct (step depth e s) as [[s1 r]|] eqn:Hstep; [|done].
    apply IH. by eapply reachable_step.
Qed.

(** ** The children behind the running table *)

Lemma children_ok_shape s s' : shape s' = shape s → children_ok s → children_ok s'.
Proof. unfold shape, children_ok. intros [= -> ->]. done. Qed.

Lemma kill_children_ok pid s : children_ok s → children_ok (kill pid s).
Proof.
  intros [Hp Hrb]. split; simpl.
  - intros i p. destruct (decide (pid = i)) as [->|Hne].
    + rewrite list_lookup_alter_eq. destruct (children s !! i) as [q|] eqn:Hq; [|done].
      intros [= <-]. apply (Hp _ _ Hq).
    + rewrite list_lookup_alter_ne; [|done]. apply Hp.
  - intros b i Hi. destruct (Hrb _ _ Hi) as (p & Hlook & Hcwd & Hex).
    destruct (decide (pid = i)) as [->|Hne].
    + rewrite list_lookup_alter_eq, Hlook. simpl. eauto.
    + rewrite list_lookup_alter_ne; eauto.
Qed.

Lemma restart_running_children_ok pid botname s :
  runningBots s !! botname = Some pid →
  children_ok s → children_ok (restart_running pid botname s).
Proof.
  intros Hpid Hok. unfold restart_running. apply kill_children_ok.
  destruct Hok as [Hp Hrb]. destruct (Hrb _ _ Hpid) as (p0 & Hp0 & Hcwd0 & _).
  split; simpl.
  - intros i p. destruct (decide (pid = i)) as [->|Hne].
    + rewrite list_lookup_alter_eq, Hp0. intros [= <-].
      destruct (Hp _ _ Hp0) as [k Hk]. exists (S k).
      rewrite replicate_S_end. simpl. by rewrite Hk, Hcwd0.
    + rewrite list_lookup_alter_ne; [|done]. apply Hp.
  - intros b i Hi. destruct (Hrb _ _ Hi) as (p & Hlook & Hcwd & Hex).
    destruct (decide (pid = i)) as [->|Hne].
    + rewrite list_lookup_alter_eq, Hlook. simpl. eauto.
    + rewrite list_lookup_alter_ne; eauto.
Qed.

Lemma handle_restart_children_ok depth botname s :
  children_ok s → children_ok (handle depth (RestartBot botname) s).1.
Proof.
  revert s. induction depth as [|d IH]; intros s Hok; simpl.
  - destruct (Js.has (runningBots s) botname); [|done].
    destruct (runningBots s !! botname) eqn:Hpid; [|done].
    by apply restart_running_children_ok.
  - destruct (Js.has (runningBots s) botname).
    + destruct (runningBots s !! botname) eqn:Hpid; [|done].
      by apply restart_running_children_ok.
    + unfold redispatch. apply IH. by apply (children_ok_shape s).
Qed.

Lemma api_start_children_ok botname s :
  children_ok s → children_ok (api_start botname s).1.
Proof.
  intros Hok. unfold api_start.
  destruct (Js.has (runningBots s) botname) eqn:Hhas; [done|].
  destruct (getMainScript (bots_dir s !! botname)) as [mainScript|]; [|done].
  destruct Hok as [Hp Hrb]. simpl.
  set (env := Js.spread _ _). set (n := length (children s)).
  assert (∀ i, i < n →
    alter (λ p, Process (p_script p) (p_cwd p) (p_env p) (p_kills p) (p_exited p)
                        (p_close p ++ [StartCleanup botname])) n
      (children s ++ [spawn mainScript botname env]) !! i = children s !! i) as Hold.
  { intros i Hi. rewrite list_lookup_alter_ne by lia. by apply lookup_app_l. }
  assert (
    alter (λ p, Process (p_script p) (p_cwd p) (p_env p) (p_kills p) (p_exited p)
                        (p_close p ++ [StartCleanup botname])) n
      (children s ++ [spawn mainScript botname env]) !! n =
    Some (Process mainScript botname env 0 false [StartCleanup botname])) as Hnew.
  { rewrite list_lookup_alter_eq. subst n. by rewrite list_lookup_middle. }
  split; simpl.
  - intros i p Hi. destruct (decide (i < n)) as [Hlt|Hge].
    + rewrite Hold in Hi by done. eauto.
    + destruct (decide (i = n)) as [->|Hne].
      * rewrite Hnew in Hi. injection Hi as <-. by exists 0.
      * apply lookup_lt_Some in Hi. rewrite length_alter, length_app in Hi.
        simpl in Hi. subst n. lia.
  - intros b i Hi. apply lookup_insert_Some in Hi as [[<- <-]|[_ Hi]].
    + rewrite Hnew. eauto.
    + destruct (Hrb _ _ Hi) as (p & Hlook & ?).
      rewrite Hold; [eauto|]. by apply lookup_lt_Some in Hlook.
Qed.

Lemma stop_for_upgrade_children_ok botName s s1 :
  stop_for_upgrade botName s = Some s1 → children_ok s → children_ok s1.
Proof.
  unfold stop_for_upgrade. intros H Hok.
  destruct (Js.has (runningBots s) botName); [|by injection H as <-].
  destruct (runningBots s !! botName) as [pid|]; [|done]. injection H as <-.
  destruct (kill_children_ok pid s Hok) as [Hp Hrb]. split; [done|].
  simpl. intros b i Hi. apply lookup_delete_Some in Hi as [_ Hi]. by apply Hrb.
Qed.

Lemma api_upload_children_ok file s :
  children_ok s → children_ok (api_upload file s).1.
Proof.
  intros Hok. unfold api_upload. destruct file as [f|]; [|done].
  destruct (stop_for_upgrade (up_name f) s) as [s1|] eqn:Hstop; [|done].
  pose proof (stop_for_upgrade_children_ok _ _ _ Hstop Hok) as Hok1.
  destruct (up_archive f) as [extracted|]; [|by apply (children_ok_shape s1)].
  set (s2 := match wrapper_of extracted with Some _ => _ | None => s1 end).
  assert (shape s2 = shape s1) as Hs2 by (subst s2; by destruct (wrapper_of extracted)).
  destruct (auto_fix extracted) as [d [e|]]; simpl.
  - apply (children_ok_shape s1); [|done]. by rewrite <- Hs2.
  - apply (children_ok_shape s1); [|done]. rewrite <- Hs2.
    unfold register. simpl. by destruct (Js.has (bots_json s2) (up_name f)).
Qed.

Lemma handle_children_ok depth r s :
  children_ok s → children_ok (handle depth r s).1.
Proof.
  intros Hok. destruct r.
  - by destruct depth.
  - destruct depth; by apply api_upload_children_ok.
  - destruct depth; by apply api_start_children_ok.
  - assert (children_ok (api_stop botname s).1); [|by destruct depth].
    unfold api_stop. destruct (Js.has (runningBots s) botname); [|done].
    destruct (runningBots s !! botname); [|done].
    apply (children_ok_shape (kill n s)); [done|]. by apply kill_children_ok.
  - by apply handle_restart_children_ok.
  - assert (children_ok (api_install botname s).1); [|by destruct depth].
    unfold api_install. destruct (Js.has (runningBots s) botname); [done|].
    by destruct (negb _).
  - assert (children_ok (api_delete botname s).1); [|by destruct depth].
    unfold api_delete. destruct (Js.has (runningBots s) botname); [done|].
    by destruct (Js.has (bots_json s) botname).
  - by destruct depth.
  - assert (children_ok (api_env_set botname key value s).1); [|by destruct depth].
    unfold api_env_set. destruct key, value; try done.
    destruct (negb _); [done|].
    destruct (bots_json s !! botname); [done|]. by destruct (Js.inherited botname).
  - assert (children_ok (api_env_delete botname key s).1); [|by destruct depth].
    unfold api_env_delete. destruct key; try done.
    destruct (negb _); [done|].
    destruct (bots_json s !! botname); [|by destruct (Js.inherited botname)].
    by destruct (negb _).
Qed.

Lemma run_restart_listeners code c k s :
  foldl (run_listener code) s (replicate k (RestartOnce c)) =
  set_timers (λ ts, ts ++ replicate k c) s.
Proof.
  revert s. induction k as [|k IH]; intros s; simpl.
  - unfold set_timers. rewrite app_nil_r. by destruct s.
  - rewrite IH. unfold set_timers. simpl. by rewrite <- app_assoc.
Qed.

Lemma filter_restart_listeners c k :
  filter (λ l, persistent l = true) (replicate k (RestartOnce c)) = [].
Proof.
  induction k as [|k IH]; [done|]. simpl.
  rewrite filter_cons_False by done. exact IH.
Qed.

(** What the exit of a child does, given its listeners. *)
Lemma child_closed_spec pid code s p c k :
  children s !! pid = Some p → p_exited p = false →
  p_close p = StartCleanup c :: replicate k (RestartOnce c) →
  ∃ s', child_closed pid code s = Some s' ∧
        runningBots s' = delete c (runningBots s) ∧
        bots_json s' = bots_json s ∧
        timers s' = timers s ++ replicate k c ∧
        children s' =
          alter (λ p, Process (p_script p) (p_cwd p) (p_env p) (p_kills p) true
                              [StartCleanup c]) pid (children s).
Proof.
  intros Hp Hex Hclose. unfold child_closed. rewrite Hp, Hex, Hclose.
  eexists. split; [done|]. simpl. rewrite run_restart_listeners. simpl.
  repeat split; try done.
  apply list_alter_ext; [|done]. intros q Hq. rewrite Hp in Hq. injection Hq as <-.
  rewrite Hclose, filter_cons_True by done. by rewrite filter_restart_listeners.
Qed.

Lemma child_closed_children_ok pid code s s' :
  child_closed pid code s = Some s' → children_ok s → children_ok s'.
Proof.
  intros Hclosed [Hp Hrb].
  destruct (children s !! pid) as [p|] eqn:Hpid;
    [|by unfold child_closed in Hclosed; rewrite Hpid in Hclosed].
  destruct (p_exited p) eqn:Hex;
    [by unfold child_closed in Hclosed; rewrite Hpid, Hex in Hclosed|].
  destruct (Hp _ _ Hpid) as [k Hk].
  destruct (child_closed_spec pid code s p _ k Hpid Hex Hk)
    as (s2 & Hs2 & Hrb2 & _ & _ & Hch2).
  rewrite Hclosed in Hs2. injection Hs2 as <-.
  split.
  - intros i q. rewrite Hch2. destruct (decide (pid = i)) as [->|Hne].
    + rewrite list_lookup_alter_eq, Hpid. intros [= <-]. by exists 0.
    + rewrite list_lookup_alter_ne; [|done]. apply Hp.
  - intros b i. rewrite Hrb2, Hch2. intros Hi.
    apply lookup_delete_Some in Hi as [Hb Hi].
    destruct (Hrb _ _ Hi) as (q & Hq & Hcwd & Hqex).
    exists q. rewrite list_lookup_alter_ne; [done|].
    intros <-. rewrite Hpid in Hq. injection Hq as <-. done.
Qed.

Lemma step_children_ok depth e s s' r :
  step depth e s = Some (s', r) → children_ok s → children_ok s'.
Proof.
  destruct e as [req|pid code|i]; simpl.
  - intros [= H] Hok. pose proof (handle_children_ok depth req s Hok) as H'.
    by rewrite H in H'.
  - destruct (child_closed pid code s) as [s1|] eqn:Hclosed; [|done].
    intros [= <- _]. by eapply child_closed_children_ok.
  - unfold timer_elapsed. destruct (timers s !! i) as [b|]; [|done].
    intros [= H] Hok. unfold redispatch in H.
    pose proof (handle_restart_children_ok depth b
                  (add_route (set_timers (delete i) s))) as H'.
    rewrite H in H'. apply H'. by apply (children_ok_shape s).
Qed.

Lemma reachable_children_ok s : reachable s → children_ok s.
Proof.
  induction 1 as [penv disk|depth e s s' r _ IH Hstep].
  - split; intros ? ?; simpl; [by rewrite lookup_nil|by rewrite lookup_empty].
  - by eapply step_children_ok.
Qed.

Lemma reachable_handle depth r s : reachable s → reachable (handle depth r s).1.
Proof.
  intros Hs. destruct (handle depth r s) as [s' resp] eqn:H.
  apply (reachable_step depth (Request r) s s' resp); [done|].
  simpl. by rewrite H.
Qed.

(** ** The example states are reachable *)

Lemma echo_uploaded_reachable : reachable echo_uploaded.
Proof. apply reachable_handle, reachable_initial. Qed.

Lemma echo_running_reachable : reachable echo_running.
Proof. apply reachable_handle, echo_uploaded_reachable. Qed.

(** ** The handlers behind [handle] *)

Lemma handle_start depth b s : handle depth (StartBot b) s = api_start b s.
Proof. by destruct depth. Qed.

Lemma handle_delete depth b s : handle depth (DeleteBot b) s = api_delete b s.
Proof. by destruct depth. Qed.

Lemma handle_set_env depth b k v s :
  handle depth (SetEnv b k v) s = api_env_set b k v s.
Proof. by destruct depth. Qed.

Lemma handle_delete_env depth b k s :
  handle depth (DeleteEnv b k) s = api_env_delete b k s.
Proof. by destruct depth. Qed.

Lemma handle_restart_running depth b pid s :
  runningBots s !! b = Some pid →
  handle depth (RestartBot b) s = (restart_running pid b s, NoResponse).
Proof. intros H. destruct depth; simpl; by rewrite (has_own _ _ _ H), H. Qed.

(** ** The listing (GET /api/bots) *)

Lemma elem_of_api_bots s U st :
  (U, st) ∈ api_bots s ↔ is_Some (bots_json s !! U) ∧ st = status_of s U.
Proof.
  unfold api_bots. rewrite list_elem_of_fmap. split.
  - intros (n & [= -> ->] & Hn). split; [|done].
    apply list_elem_of_fmap in Hn as ([k env] & -> & Hk).
    apply elem_of_map_to_list in Hk. eauto.
  - intros [[env Henv] ->]. exists U. split; [done|].
    apply list_elem_of_fmap. exists (U, env). split; [done|].
    by apply elem_of_map_to_list.
Qed.

(** C1, as stated, fails for a unit the registry does not know: start
    never reads the registry, so a directory that is there without a record
    (left on disk, or left by an upload that failed) can be started, and the
    listing, which maps over the registry's keys, has no entry for the unit
    that now runs. *)
Lemma unregistered_unit_runs_unlisted :
  (∃ s, run 0 [Request (StartBot "ghost")] ghost_disk = Some s ∧
        reachable s ∧
        runningBots s !! "ghost" = Some 0 ∧
        (("ghost", Running) ∉ api_bots s) ∧ api_bots s = []) ∧
  (∃ s1 s,
     handle 0 (UploadBot (Some (Upload "odd" (Some nested_index_archive)))) fresh
     = (s1, Send 500 "Error processing upload.") ∧
     handle 0 (StartBot "odd") s1 = (s, Send 200 "Bot started") ∧
     reachable s ∧
     runningBots s !! "odd" = Some 0 ∧
     (("odd", Running) ∉ api_bots s) ∧ api_bots s = []).
Proof.
  split.
  - exists (handle 0 (StartBot "ghost") ghost_disk).1.
    split; [vm_compute; reflexivity|].
    split; [apply reachable_handle, reachable_initial|].
    split; [vm_compute; reflexivity|].
    split; [|vm_compute; reflexivity].
    rewrite elem_of_api_bots. intros [[env Henv] _]. vm_compute in Henv. done.
  - exists (handle 0 (UploadBot (Some (Upload "odd" (Some nested_index_archive))))
              fresh).1,
           (handle 0 (StartBot "odd")
              (handle 0 (UploadBot (Some (Upload "odd" (Some nested_index_archive))))
                 fresh).1).1.
    split; [vm_compute; reflexivity|].
    split; [vm_compute; reflexivity|].
    split; [do 2 apply reachable_handle; apply reachable_initial|].
    split; [vm_compute; reflexivity|].
    split; [|vm_compute; reflexivity].
    rewrite elem_of_api_bots. intros [[env Henv] _]. vm_compute in Henv. done.
Qed.

(** C1, amended. At every state the panel can reach, the listing reports a
    unit of the registry as Running exactly when [runningBots] has an entry
    for it, and as Stopped exactly when it has none. *)
Theorem listing_reflects_running_table s U :
  reachable s → is_Some (bots_json s !! U) →
  ((U, Running) ∈ api_bots s ↔ is_Some (runningBots s !! U)) ∧
  ((U, Stopped) ∈ api_bots s ↔ runningBots s !! U = None).
Proof.
  intros Hs HU. destruct HU as [env Henv].
  destruct (reachable_names s Hs) as [_ Hdb].
  destruct (Hdb _ _ Henv) as [Hname _].
  rewrite !elem_of_api_bots. unfold status_of, Js.has. rewrite Hname.
  destruct (runningBots s !! U) as [pid|]; split; split;
    try done; try (intros [_ [=]]); eauto.
Qed.

Lemma listing_reflects_running_table_witness :
  (reachable echo_running ∧ is_Some (bots_json echo_running !! "echo-bot")) ∧
  ((("echo-bot", Running) ∈ api_bots echo_running
    ↔ is_Some (runningBots echo_running !! "echo-bot")) ∧
   (("echo-bot", Stopped) ∈ api_bots echo_running
    ↔ runningBots echo_running !! "echo-bot" = None)).
Proof.
  assert (is_Some (bots_json echo_running !! "echo-bot")) as H
    by (vm_compute; eauto).
  split; [split; [apply echo_running_reachable | exact H]|].
  apply (listing_reflects_running_table echo_running "echo-bot");
    [apply echo_running_reachable | exact H].
Defined.

(** ** Start *)

(** C4. Starting a unit that has an entry in [runningBots] answers 400
    'Bot is already running.' and leaves the whole state as it was: no child
    is spawned, the table is unchanged. *)
Theorem start_already_running depth s U pid :
  runningBots s !! U = Some pid →
  handle depth (StartBot U) s = (s, Send 400 "Bot is already running.").
Proof.
  intros H. rewrite handle_start. unfold api_start. by rewrite (has_own _ _ _ H).
Qed.

Lemma start_already_running_witness :
  runningBots echo_running !! "echo-bot" = Some 0 ∧
  handle 0 (StartBot "echo-bot") echo_running
  = (echo_running, Send 400 "Bot is already running.").
Proof.
  split; [vm_compute; reflexivity|].
  apply (start_already_running 0 echo_running "echo-bot" 0).
  vm_compute; reflexivity.
Defined.

(** C5. A start that succeeds spawns the child with the panel's own
    environment overlaid with the unit's overrides: a key of the overrides
    has the unit's value, every other key has what the panel's environment
    has for it. *)
Theorem start_environment depth s U s' :
  handle depth (StartBot U) s = (s', Send 200 "Bot started") →
  ∃ p, runningBots s' !! U = Some (length (children s)) ∧
       children s' !! length (children s) = Some p ∧
       (∀ k v, envOverrides s U !! k = Some v → p_env p !! k = Some v) ∧
       (∀ k, envOverrides s U !! k = None → p_env p !! k = process_env s !! k).
Proof.
  rewrite handle_start. unfold api_start.
  destruct (Js.has (runningBots s) U); [done|].
  destruct (getMainScript (bots_dir s !! U)) as [mainScript|]; [|done].
  intros [= <-]. eexists. simpl. split; [apply lookup_insert_eq|].
  split; [by rewrite list_lookup_alter_eq, list_lookup_middle|].
  simpl. unfold envOverrides.
  split; intros k; [intros v|]; intros Hk; by rewrite spread_lookup, Hk.
Qed.

Lemma start_environment_witness :
  handle 0 (StartBot "echo-bot") echo_configured
  = ((handle 0 (StartBot "echo-bot") echo_configured).1, Send 200 "Bot started") ∧
  ∃ p, runningBots (handle 0 (StartBot "echo-bot") echo_configured).1 !! "echo-bot"
       = Some (length (children echo_configured)) ∧
       children (handle 0 (StartBot "echo-bot") echo_configured).1
         !! length (children echo_configured) = Some p ∧
       (∀ k v, envOverrides echo_configured "echo-bot" !! k = Some v →
               p_env p !! k = Some v) ∧
       (∀ k, envOverrides echo_configured "echo-bot" !! k = None →
             p_env p !! k = process_env echo_configured !! k).
Proof.
  assert (handle 0 (StartBot "echo-bot") echo_configured
          = ((handle 0 (StartBot "echo-bot") echo_configured).1,
             Send 200 "Bot started")) as H by (vm_compute; reflexivity).
  split; [exact H|].
  exact (start_environment 0 echo_configured "echo-bot" _ H).
Defined.

(** In that example the unit's [PATH] wins over the panel's. *)
Example override_wins :
  ∃ p, children (handle 0 (StartBot "echo-bot") echo_configured).1 !! 0 = Some p ∧
       process_env echo_configured !! "PATH" = Some "/usr/bin" ∧
       p_env p !! "PATH" = Some "/opt/bot/bin".
Proof. eexists. vm_compute. done. Qed.

(** C9. When the start guard lets the request through and the unit's
    package.json parses with a non-empty [main], the child is spawned on
    that value, whether or not a file of that name is in the directory; and
    404 'Bot main script not found.' is sent only when the manifest yields
    no usable [main] and the directory has neither index.js nor bot.js. *)
Theorem start_entrypoint depth s U :
  (∀ d main,
     Js.has (runningBots s) U = false →
     bots_dir s !! U = Some d →
     d !! "package.json" = Some (File (Manifest (Some main))) →
     main ≠ EmptyString →
     ∃ s' p, handle depth (StartBot U) s = (s', Send 200 "Bot started") ∧
             runningBots s' !! U = Some (length (children s)) ∧
             children s' !! length (children s) = Some p ∧
             p_script p = main ∧ p_exited p = false) ∧
  (∀ s',
     handle depth (StartBot U) s = (s', Send 404 "Bot main script not found.") →
     (∀ main, manifest_main (bots_dir s !! U) = Some main → main = EmptyString) ∧
     Fs.existsSync (bots_dir s !! U) "index.js" = false ∧
     Fs.existsSync (bots_dir s !! U) "bot.js" = false).
Proof.
  split.
  - intros d main Hguard Hd Hpkg Hmain.
    rewrite handle_start. unfold api_start. rewrite Hguard, Hd.
    unfold getMainScript, manifest_main. simpl. rewrite Hpkg.
    apply truthy_nonempty in Hmain. rewrite Hmain.
    do 2 eexists. split; [done|]. simpl.
    split; [apply lookup_insert_eq|].
    split; [by rewrite list_lookup_alter_eq, list_lookup_middle|done].
  - intros s'. rewrite handle_start. unfold api_start.
    destruct (Js.has (runningBots s) U); [done|].
    destruct (getMainScript (bots_dir s !! U)) as [script|] eqn:Hscript; [done|].
    intros _. unfold getMainScript in Hscript.
    destruct (Fs.existsSync (bots_dir s !! U) "package.json") eqn:Hpkg.
    + destruct (manifest_main (bots_dir s !! U)) as [main|] eqn:Hmain.
      * destruct (Js.truthy main) eqn:Htruthy; [done|].
        destruct (Fs.existsSync (bots_dir s !! U) "index.js"); [done|].
        destruct (Fs.existsSync (bots_dir s !! U) "bot.js"); [done|].
        split; [|done]. intros ? [= <-].
        destruct (decide (main = EmptyString)) as [|Hne]; [done|].
        apply truthy_nonempty in Hne. congruence.
      * destruct (Fs.existsSync (bots_dir s !! U) "index.js"); [done|].
        by destruct (Fs.existsSync (bots_dir s !! U) "bot.js").
    + destruct (Fs.existsSync (bots_dir s !! U) "index.js"); [done|].
      destruct (Fs.existsSync (bots_dir s !! U) "bot.js"); [done|].
      split; [|done]. intros main Hmain.
      unfold manifest_main, Fs.existsSync in *.
      destruct (bots_dir s !! U) as [d|]; [|done].
      by destruct (d !! "package.json").
Qed.

Lemma start_entrypoint_witness :
  (ghost_dir !! "missing.js" = None ∧
   ∃ s' p, handle 0 (StartBot "ghost") ghost_disk = (s', Send 200 "Bot started") ∧
           runningBots s' !! "ghost" = Some 0 ∧
           children s' !! 0 = Some p ∧
           p_script p = "missing.js" ∧ p_exited p = false) ∧
  (handle 0 (StartBot "hollow") ghost_disk
   = (ghost_disk, Send 404 "Bot main script not found.") ∧
   Fs.existsSync (bots_dir ghost_disk !! "hollow") "index.js" = false ∧
   Fs.existsSync (bots_dir ghost_disk !! "hollow") "bot.js" = false).
Proof.
  split.
  - split; [vm_compute; reflexivity|].
    apply (proj1 (start_entrypoint 0 ghost_disk "ghost") ghost_dir "missing.js");
      [vm_compute; reflexivity | vm_compute; reflexivity
      | vm_compute; reflexivity | discriminate].
  - assert (handle 0 (StartBot "hollow") ghost_disk
            = (ghost_disk, Send 404 "Bot main script not found.")) as H
      by (vm_compute; reflexivity).
    split; [exact H|].
    exact (proj2 (proj2 (start_entrypoint 0 ghost_disk "hollow") _ H)).
Defined.

(** ** Delete *)

(** C8. Deleting a unit that has an entry in [runningBots] answers 400
    'Bot is running. Stop it first.' and leaves the whole state as it was:
    the directory and the registry record stay. *)
Theorem delete_while_running depth s U pid :
  runningBots s !! U = Some pid →
  handle depth (DeleteBot U) s = (s, Send 400 "Bot is running. Stop it first.").
Proof.
  intros H. rewrite handle_delete. unfold api_delete. by rewrite (has_own _ _ _ H).
Qed.

Lemma delete_while_running_witness :
  runningBots echo_running !! "echo-bot" = Some 0 ∧
  handle 0 (DeleteBot "echo-bot") echo_running
  = (echo_running, Send 400 "Bot is running. Stop it first.") ∧
  bots_dir echo_running !! "echo-bot" = Some echo_archive ∧
  is_Some (bots_json echo_running !! "echo-bot").
Proof.
  split; [vm_compute; reflexivity|].
  split; [|split; [vm_compute; reflexivity | vm_compute; eauto]].
  apply (delete_while_running 0 echo_running "echo-bot" 0).
  vm_compute; reflexivity.
Defined.

(** ** Environment variables *)

(** C10. In a reachable state, deleting a variable that the unit's [env]
    binds to a falsy string answers 404 'Variable not found.' and leaves the
    whole state, the store included, as it was. *)
Theorem delete_falsy_variable depth s U env K v :
  reachable s →
  bots_json s !! U = Some env → env !! K = Some v → Js.truthy v = false →
  handle depth (DeleteEnv U (Some K)) s = (s, Send 404 "Variable not found.").
Proof.
  intros Hs HU HK Hv. rewrite handle_delete_env. unfold api_env_delete.
  destruct (reachable_names s Hs) as [_ Hdb].
  destruct (Hdb _ _ HU) as [_ Hempty].
  assert (Js.truthy K = true) as ->.
  { apply truthy_nonempty. intros ->. congruence. }
  simpl. rewrite HU. unfold Js.has_string. by rewrite HK, Hv.
Qed.

Lemma echo_blank_reachable : reachable echo_blank.
Proof. apply reachable_handle, echo_uploaded_reachable. Qed.

Lemma delete_falsy_variable_witness :
  (reachable echo_blank ∧
   bots_json echo_blank !! "echo-bot" = Some {[ "TOKEN" := EmptyString ]}) ∧
  handle 0 (DeleteEnv "echo-bot" (Some "TOKEN")) echo_blank
  = (echo_blank, Send 404 "Variable not found.").
Proof.
  split; [split; [apply echo_blank_reachable | vm_compute; reflexivity]|].
  apply (delete_falsy_variable 0 echo_blank "echo-bot"
           {[ "TOKEN" := EmptyString ]} "TOKEN" EmptyString);
    [apply echo_blank_reachable | vm_compute; reflexivity
    | vm_compute; reflexivity | vm_compute; reflexivity].
Defined.

(** C6, as stated, fails at three inputs: an empty key is refused, the key
    [__proto__] is answered 'Variable saved.' and not stored, and a
    variable bound to the empty string is not deleted. *)
Lemma env_roundtrip_counterexample :
  (∃ m, api_env_get "echo-bot"
          (handle 0 (SetEnv "echo-bot" (Some EmptyString) (Some "V")) echo_uploaded).1
        = JsonEnv m ∧ m !! EmptyString ≠ Some "V") ∧
  (∃ m, (handle 0 (SetEnv "echo-bot" (Some "__proto__") (Some "V")) echo_uploaded).2
        = Send 200 "Variable saved." ∧
        api_env_get "echo-bot"
          (handle 0 (SetEnv "echo-bot" (Some "__proto__") (Some "V")) echo_uploaded).1
        = JsonEnv m ∧ m !! "__proto__" ≠ Some "V") ∧
  (∃ m, api_env_get "echo-bot"
          (handle 0 (DeleteEnv "echo-bot" (Some "TOKEN")) echo_blank).1
        = JsonEnv m ∧ m !! "TOKEN" = Some EmptyString).
Proof.
  split; [|split].
  - exists ∅. split; [vm_compute; reflexivity|]. by rewrite lookup_empty.
  - exists ∅. split; [vm_compute; reflexivity|].
    split; [vm_compute; reflexivity|]. by rewrite lookup_empty.
  - exists {[ "TOKEN" := EmptyString ]}. split; vm_compute; reflexivity.
Qed.

(** C6, amended. For a registered unit and a key that is neither empty nor
    [__proto__]: setting the variable succeeds and the unit's [env] then
    binds the key to the value; whenever deleting the variable succeeds,
    the unit's [env] no longer has the key; and deleting succeeds when the
    key is bound to a non-empty value. *)
Theorem env_roundtrip depth s U K V :
  is_Some (bots_json s !! U) → K ≠ EmptyString → K ≠ "__proto__" →
  (∃ s1 m, handle depth (SetEnv U (Some K) (Some V)) s
           = (s1, Send 200 "Variable saved.") ∧
           api_env_get U s1 = JsonEnv m ∧ m !! K = Some V) ∧
  (∀ s2, handle depth (DeleteEnv U (Some K)) s = (s2, Send 200 "Variable deleted.") →
         ∃ m, api_env_get U s2 = JsonEnv m ∧ m !! K = None) ∧
  (∀ env v, bots_json s !! U = Some env → env !! K = Some v → v ≠ EmptyString →
            ∃ s2, handle depth (DeleteEnv U (Some K)) s
                  = (s2, Send 200 "Variable deleted.")).
Proof.
  intros [env HU] HK Hproto. apply truthy_nonempty in HK.
  rewrite handle_set_env, handle_delete_env.
  unfold api_env_set, api_env_delete. rewrite HK, HU. simpl.
  split; [|split].
  - do 2 eexists. split; [done|]. unfold api_env_get. simpl.
    rewrite lookup_insert_eq. split; [done|].
    unfold Js.assign. rewrite decide_False by done. apply lookup_insert_eq.
  - intros s2. destruct (Js.has_string env K); [|done]. simpl.
    intros [= <-]. eexists. unfold api_env_get. simpl.
    rewrite lookup_insert_eq. split; [done|]. apply lookup_delete_eq.
  - intros env' v [= <-] Hv Hne. unfold Js.has_string. rewrite Hv.
    apply truthy_nonempty in Hne. rewrite Hne. simpl. eauto.
Qed.

Lemma env_roundtrip_witness :
  (is_Some (bots_json echo_configured !! "echo-bot")) ∧
  (∃ s1 m, handle 0 (SetEnv "echo-bot" (Some "TOKEN") (Some "abc")) echo_configured
           = (s1, Send 200 "Variable saved.") ∧
           api_env_get "echo-bot" s1 = JsonEnv m ∧ m !! "TOKEN" = Some "abc") ∧
  (∃ s2 m, handle 0 (DeleteEnv "echo-bot" (Some "PATH")) echo_configured
           = (s2, Send 200 "Variable deleted.") ∧
           api_env_get "echo-bot" s2 = JsonEnv m ∧ m !! "PATH" = None).
Proof.
  assert (is_Some (bots_json echo_configured !! "echo-bot")) as H
    by (vm_compute; eauto).
  split; [exact H|]. split.
  - apply (env_roundtrip 0 echo_configured "echo-bot" "TOKEN" "abc" H);
      discriminate.
  - destruct (env_roundtrip 0 echo_configured "echo-bot" "PATH" "abc" H)
      as (_ & Hdel & Hok); [discriminate|discriminate|].
    destruct (Hok {[ "PATH" := "/opt/bot/bin" ]} "/opt/bot/bin") as [s2 Hs2];
      [vm_compute; reflexivity | vm_compute; reflexivity | discriminate|].
    exists s2. destruct (Hdel s2 Hs2) as [m Hm]. exists m. by split.
Defined.

(** ** Restart *)

Lemma restart_running_child pid botname s p :
  children s !! pid = Some p →
  children (restart_running pid botname s) !! pid =
  Some (Process (p_script p) (p_cwd p) (p_env p) (S (p_kills p)) (p_exited p)
                (p_close p ++ [RestartOnce botname])).
Proof.
  intros Hp. unfold restart_running, kill, add_listener. simpl.
  by rewrite !list_lookup_alter_eq, Hp.
Qed.

(** C3, as stated, fails: two restart requests before the exit leave two
    [once] listeners on the child, next to the listener of its start. *)
Lemma restart_twice_two_observers :
  ∃ s p,
    run 0 [Request (RestartBot "echo-bot"); Request (RestartBot "echo-bot")]
        echo_running = Some s ∧
    children s !! 0 = Some p ∧ p_exited p = false ∧
    p_close p = [StartCleanup "echo-bot"; RestartOnce "echo-bot"; RestartOnce "echo-bot"] ∧
    restart_observers p = [RestartOnce "echo-bot"; RestartOnce "echo-bot"] ∧
    ¬ (length (restart_observers p) ≤ 1)%nat.
Proof.
  do 2 eexists. split; [vm_compute; reflexivity|].
  split; [vm_compute; reflexivity|].
  split; [reflexivity|]. split; [reflexivity|]. split; [reflexivity|].
  simpl. lia.
Qed.

(** C3, amended. Each restart request made while the unit has an entry in
    [runningBots] attaches one more [once] listener to the child behind it
    and leaves the table alone: after [k] requests the child carries [k]
    more restart observers than before. *)
Theorem restart_attaches_one_observer_each depth s U pid p k :
  runningBots s !! U = Some pid → children s !! pid = Some p →
  ∃ s' p',
    run depth (replicate k (Request (RestartBot U))) s = Some s' ∧
    runningBots s' = runningBots s ∧
    children s' !! pid = Some p' ∧
    p_exited p' = p_exited p ∧
    p_close p' = p_close p ++ replicate k (RestartOnce U) ∧
    length (restart_observers p') = length (restart_observers p) + k.
Proof.
  revert s p. induction k as [|k IH]; intros s p Hpid Hp.
  - exists s, p. simpl. rewrite app_nil_r. repeat split; done.
  - simpl. rewrite (handle_restart_running _ _ _ _ Hpid).
    pose proof (restart_running_child pid U s p Hp) as Hp1.
    destruct (IH (restart_running pid U s) _ Hpid Hp1)
      as (s' & p' & Hrun & Hrb & Hp' & Hex & Hclose & Hlen).
    exists s', p'. split; [done|]. split; [done|]. split; [done|].
    split; [done|]. simpl in Hclose, Hlen. split.
    + by rewrite Hclose, <- app_assoc.
    + rewrite Hlen. unfold restart_observers. simpl.
      rewrite filter_app, length_app. simpl. lia.
Qed.

Lemma restart_attaches_one_observer_each_witness :
  (runningBots echo_running !! "echo-bot" = Some 0 ∧
   children echo_running !! 0
   = Some (Process "index.js" "echo-bot" {[ "PATH" := "/usr/bin" ]} 0 false
                   [StartCleanup "echo-bot"])) ∧
  ∃ s' p',
    run 0 (replicate 3 (Request (RestartBot "echo-bot"))) echo_running = Some s' ∧
    runningBots s' = runningBots echo_running ∧
    children s' !! 0 = Some p' ∧
    p_exited p' = false ∧
    p_close p' = [StartCleanup "echo-bot"] ++ replicate 3 (RestartOnce "echo-bot") ∧
    length (restart_observers p') = 0 + 3.
Proof.
  assert (runningBots echo_running !! "echo-bot" = Some 0) as H1
    by (vm_compute; reflexivity).
  assert (children echo_running !! 0
          = Some (Process "index.js" "echo-bot" {[ "PATH" := "/usr/bin" ]} 0 false
                          [StartCleanup "echo-bot"])) as H2
    by (vm_compute; reflexivity).
  split; [by split|].
  exact (restart_attaches_one_observer_each 0 echo_running "echo-bot" 0 _ 3 H1 H2).
Defined.

(** C2. From a reachable state in which the unit runs: the restart request
    attaches its listener and asks the child to terminate; when the child
    exits, its entry is removed and a timer is set; when the timer elapses,
    the callback registers one more route and dispatches the restart request
    again, which finds the unit stopped and nests that dispatch until the
    stack is exhausted.  No child is spawned and the unit has no entry in
    [runningBots]. *)
Theorem restart_leaves_no_instance depth code s U pid :
  reachable s → runningBots s !! U = Some pid →
  ∃ s1 s2 s3,
    step depth (Request (RestartBot U)) s = Some (s1, NoResponse) ∧
    step depth (ChildClosed pid code) s1 = Some (s2, NoResponse) ∧
    step depth (TimerElapsed (length (timers s))) s2 = Some (s3, StackExhausted) ∧
    runningBots s3 !! U = None ∧
    length (children s3) = length (children s).
Proof.
  intros Hs Hpid.
  destruct (reachable_names s Hs) as [Hrb _]. pose proof (Hrb _ _ Hpid) as Hname.
  destruct (reachable_children_ok s Hs) as [Hproc Htable].
  destruct (Htable _ _ Hpid) as (p & Hp & Hcwd & Hex).
  destruct (Hproc _ _ Hp) as [k Hk]. rewrite Hcwd in Hk.
  pose proof (restart_running_child pid U s p Hp) as Hp1.
  set (s1 := restart_running pid U s) in *.
  destruct (child_closed_spec pid code s1 _ U (S k) Hp1 Hex) as
    (s2 & Hclosed & Hrb2 & _ & Htimers & Hch2).
  { rewrite replicate_S_end. simpl. by rewrite Hk. }
  set (s2' := add_route (set_timers (delete (length (timers s))) s2)).
  destruct (handle_restart_frame depth U s2') as [Htab Hlen].
  assert (Js.has (runningBots s2') U = false) as Hstopped.
  { unfold Js.has. simpl. by rewrite Hrb2, lookup_delete_eq. }
  pose proof (handle_restart_stopped depth U s2' Hstopped) as Hresp.
  exists s1, s2, (handle depth (RestartBot U) s2').1. split; [|split; [|split; [|split]]].
  - simpl. by rewrite (handle_restart_running _ _ _ _ Hpid).
  - simpl. by rewrite Hclosed.
  - simpl. unfold timer_elapsed. rewrite Htimers.
    replace (timers s1) with (timers s) by done.
    change (replicate (S k) U) with (U :: replicate k U).
    rewrite list_lookup_middle by done. unfold redispatch. fold s2'.
    rewrite <- Hresp. by destruct (handle depth (RestartBot U) s2').
  - unfold tables in Htab. injection Htab as -> _. simpl.
    by rewrite Hrb2, lookup_delete_eq.
  - rewrite Hlen. simpl. rewrite Hch2, length_alter.
    unfold s1, restart_running, kill, add_listener. simpl.
    by rewrite !length_alter.
Qed.

Lemma restart_leaves_no_instance_witness :
  (reachable echo_running ∧ runningBots echo_running !! "echo-bot" = Some 0) ∧
  ∃ s1 s2 s3,
    step 8 (Request (RestartBot "echo-bot")) echo_running = Some (s1, NoResponse) ∧
    step 8 (ChildClosed 0 (Some 0%Z)) s1 = Some (s2, NoResponse) ∧
    step 8 (TimerElapsed (length (timers echo_running))) s2
    = Some (s3, StackExhausted) ∧
    runningBots s3 !! "echo-bot" = None ∧
    length (children s3) = length (children echo_running).
Proof.
  assert (runningBots echo_running !! "echo-bot" = Some 0) as H
    by (vm_compute; reflexivity).
  split; [split; [apply echo_running_reachable | exact H]|].
  exact (restart_leaves_no_instance 8 (Some 0%Z) echo_running "echo-bot" 0
           echo_running_reachable H).
Defined.

(** The same trace, evaluated: the listing shows the unit stopped, one
    child was ever spawned, and the nested dispatches left their routes. *)
Example restart_trace :
  ∃ s, run 8 [Request (RestartBot "echo-bot"); ChildClosed 0 (Some 0%Z); TimerElapsed 0]
           echo_running = Some s ∧
       api_bots s = [("echo-bot", Stopped)] ∧
       length (children s) = 1 ∧ timers s = [] ∧ noop_routes s = 10.
Proof. eexists. split; [vm_compute; reflexivity|]. vm_compute. done. Qed.

(** ** Upload: promoting the contents of a wrapper directory *)

Lemma elem_of_readdir (d : dir) f : f ∈ Fs.readdir d ↔ is_Some (d !! f).
Proof.
  unfold Fs.readdir. rewrite list_elem_of_fmap. split.
  - intros ([k n] & -> & Hk). apply elem_of_map_to_list in Hk. eauto.
  - intros [n Hn]. exists (f, n). split; [done|]. by apply elem_of_map_to_list.
Qed.

Lemma wrapper_of_singleton w nested :
  wrapper_of {[ w := Dir nested ]} = Some (w, nested).
Proof.
  unfold wrapper_of, Fs.readdir. rewrite map_to_list_singleton. simpl.
  by rewrite lookup_singleton_eq.
Qed.

Lemma wrapper_of_inv d w nested :
  wrapper_of d = Some (w, nested) → d = {[ w := Dir nested ]}.
Proof.
  unfold wrapper_of, Fs.readdir.
  destruct (map_to_list d) as [|[k n] [|? ?]] eqn:Hl; simpl; try done.
  assert (d !! k = Some n) as Hk.
  { apply elem_of_map_to_list. rewrite Hl. by left. }
  rewrite Hk. destruct n as [|entries]; [done|]. intros [= <- <-].
  rewrite <- (list_to_map_to_list d), Hl. done.
Qed.

Lemma promote_app w l1 l2 d :
  promote w (l1 ++ l2) d =
  match promote w l1 d with
  | (d1, None) => promote w l2 d1
  | failed => failed
  end.
Proof.
  revert d. induction l1 as [|f l1 IH]; intros d; simpl; [done|].
  destruct (Fs.rename_up w f d); [done|]. apply IH.
Qed.

(** Promoting names that do not collide with anything succeeds and moves
    exactly those entries up. *)
Lemma promote_spec w names : ∀ (d nested : dir),
  NoDup names →
  d !! w = Some (Dir nested) →
  (∀ f, f ∈ names → is_Some (nested !! f) ∧ f ≠ w ∧ d !! f = None) →
  ∃ d' rest,
    promote w names d = (d', None) ∧
    d' !! w = Some (Dir rest) ∧
    (∀ g, rest !! g = if decide (g ∈ names) then None else nested !! g) ∧
    (∀ g, g ≠ w → d' !! g = if decide (g ∈ names) then nested !! g else d !! g).
Proof.
  induction names as [|f names IH]; intros d nested Hnodup Hw Hnames.
  - exists d, nested. simpl. repeat split; done.
  - apply NoDup_cons in Hnodup as [Hf Hnodup].
    destruct (Hnames f) as ([n Hn] & Hfw & Hdf); [by left|].
    simpl. unfold Fs.rename_up. rewrite Hw, Hn, decide_False, Hdf by done.
    set (d1 := <[f:=n]> (<[w:=Dir (delete f nested)]> d)).
    destruct (IH d1 (delete f nested) Hnodup) as (d' & rest & Hrun & Hw' & Hrest & Hup).
    { subst d1. rewrite lookup_insert_ne by done. apply lookup_insert_eq. }
    { intros g Hg. destruct (Hnames g) as (Hgn & Hgw & Hdg); [by right|].
      assert (g ≠ f) by (intros ->; done).
      split; [by rewrite lookup_delete_ne|]. split; [done|].
      subst d1. by rewrite !lookup_insert_ne. }
    exists d', rest. split; [done|]. split; [done|]. split.
    + intros g. rewrite Hrest. destruct (decide (g = f)) as [->|Hgf].
      * rewrite lookup_delete_eq. rewrite (decide_True (P := f ∈ f :: names)) by by left.
        by destruct (decide (f ∈ names)).
      * rewrite lookup_delete_ne by done.
        destruct (decide (g ∈ names)) as [Hin|Hout].
        -- by rewrite decide_True by by right.
        -- rewrite decide_False; [done|]. by intros [->|?]%elem_of_cons.
    + intros g Hgw. rewrite Hup by done. destruct (decide (g = f)) as [->|Hgf].
      * rewrite (decide_True (P := f ∈ f :: names)) by by left.
        rewrite decide_False by done. subst d1. by rewrite lookup_insert_eq.
      * destruct (decide (g ∈ names)) as [Hin|Hout].
        -- rewrite decide_True by by right. by rewrite lookup_delete_ne.
        -- rewrite decide_False by by intros [->|?]%elem_of_cons.
           subst d1. by rewrite !lookup_insert_ne.
Qed.

(** When no entry of the wrapper has the wrapper's own name, the fix leaves
    the wrapper's entries as the directory, after one round: an entry that
    is again a lone directory stays as it is. *)
Lemma auto_fix_flattens w (nested : dir) :
  nested !! w = None → auto_fix {[ w := Dir nested ]} = (nested, None).
Proof.
  intros Hfree. unfold auto_fix. rewrite wrapper_of_singleton.
  destruct (promote_spec w (Fs.readdir nested) {[ w := Dir nested ]} nested)
    as (d' & rest & -> & Hw' & Hrest & Hup).
  { apply NoDup_fst_map_to_list. }
  { apply lookup_singleton_eq. }
  { intros f Hf. apply elem_of_readdir in Hf. split; [done|].
    assert (f ≠ w) by (intros ->; destruct Hf; congruence).
    split; [done|]. by rewrite lookup_singleton_ne. }
  assert (rest = ∅) as ->.
  { apply map_empty. intros g. rewrite Hrest. case_decide as Hg; [done|].
    rewrite elem_of_readdir in Hg. by apply eq_None_not_Some. }
  unfold Fs.rmdir. rewrite Hw'. unfold Fs.is_empty.
  rewrite bool_decide_eq_true_2 by apply map_size_empty.
  f_equal. apply map_eq. intros g. destruct (decide (g = w)) as [->|Hg].
  - by rewrite lookup_delete_eq.
  - rewrite lookup_delete_ne, Hup by done. case_decide as Hin; [done|].
    rewrite lookup_singleton_ne by done.
    rewrite elem_of_readdir in Hin. symmetry. by apply eq_None_not_Some.
Qed.

(** When the wrapper has an entry of its own name, the rename of that entry
    throws: the fix stops there, with the wrapper still in place and that
    entry still inside it. *)
Lemma auto_fix_collision w (nested : dir) n :
  nested !! w = Some n →
  ∃ d' rest e,
    auto_fix {[ w := Dir nested ]} = (d', Some e) ∧
    d' !! w = Some (Dir rest) ∧ rest !! w = Some n.
Proof.
  intros Hn. unfold auto_fix. rewrite wrapper_of_singleton.
  assert (w ∈ Fs.readdir nested) as Hin by (apply elem_of_readdir; eauto).
  apply list_elem_of_split in Hin as (l1 & l2 & Hsplit).
  pose proof (NoDup_fst_map_to_list nested) as Hnodup.
  fold (Fs.readdir nested) in Hnodup. rewrite Hsplit in Hnodup |- *.
  apply NoDup_app in Hnodup as (Hnodup1 & Hdisj & _).
  assert (w ∉ l1) as Hw1 by (intros Hw; apply (Hdisj _ Hw); by left).
  destruct (promote_spec w l1 {[ w := Dir nested ]} nested Hnodup1)
    as (d1 & rest & Hrun & Hw' & Hrest & _).
  { apply lookup_singleton_eq. }
  { intros f Hf. assert (f ≠ w) by (intros ->; done).
    split; [|split; [done|by rewrite lookup_singleton_ne]].
    apply elem_of_readdir. rewrite Hsplit. apply elem_of_app. by left. }
  assert (rest !! w = Some n) as Hrw by (by rewrite Hrest, decide_False).
  rewrite promote_app, Hrun. simpl. unfold Fs.rename_up.
  rewrite Hw', Hrw, decide_True by done.
  by exists d1, rest, ENOTEMPTY.
Qed.

Lemma handle_upload depth file s : handle depth (UploadBot file) s = api_upload file s.
Proof. by destruct depth. Qed.

Lemma stop_for_upgrade_registry botName s s1 :
  stop_for_upgrade botName s = Some s1 → bots_json s1 = bots_json s.
Proof.
  unfold stop_for_upgrade. destruct (Js.has (runningBots s) botName).
  - destruct (runningBots s !! botName); [|done]. by intros [= <-].
  - by intros [= <-].
Qed.

(** The same two facts for any directory the fix finds to be a lone wrapper. *)
Lemma auto_fix_promotes (d : dir) w (nested : dir) :
  wrapper_of d = Some (w, nested) → nested !! w = None →
  auto_fix d = (nested, None).
Proof. intros ->%wrapper_of_inv. apply auto_fix_flattens. Qed.

Lemma auto_fix_throws (d : dir) w (nested : dir) n :
  wrapper_of d = Some (w, nested) → nested !! w = Some n →
  ∃ d' rest e,
    auto_fix d = (d', Some e) ∧ d' !! w = Some (Dir rest) ∧ rest !! w = Some n.
Proof. intros ->%wrapper_of_inv. apply auto_fix_collision. Qed.

(** X8. An upload whose archive unpacks to one wrapper directory with no
    entry of the wrapper's name leaves the wrapper's entries as the unit's
    directory. *)
Lemma upload_flattens depth B (extracted : dir) w (nested : dir) s s1 :
  stop_for_upgrade B s = Some s1 →
  wrapper_of extracted = Some (w, nested) → nested !! w = None →
  ∃ s', handle depth (UploadBot (Some (Upload B (Some extracted)))) s
        = (s', Redirect "/") ∧
        bots_dir s' !! B = Some nested.
Proof.
  intros Hstop Hwrap Hfree. rewrite handle_upload. unfold api_upload. simpl.
  rewrite Hstop, Hwrap, (auto_fix_promotes _ _ _ Hwrap Hfree).
  eexists. split; [done|]. simpl. unfold register.
  destruct (negb _); simpl; apply lookup_insert_eq.
Qed.

(** One round only: the archive a/b/c.js leaves b/c.js. *)
Example flattened_once :
  bots_dir (handle 0 (UploadBot (Some (Upload "deep"
              (Some {[ "a" := Dir {[ "b" := Dir {[ "c.js" := File Blob ]} ]} ]}))))
              fresh).1 !! "deep"
  = Some {[ "b" := Dir {[ "c.js" := File Blob ]} ]}.
Proof. vm_compute. reflexivity. Qed.

(** C7. An upload whose archive unpacks to one top-level entry, a
    directory that has an entry of its own name, answers 500
    'Error processing upload.': the unit's directory still holds the
    wrapper, with that entry inside it, and the registry is as it was. *)
Theorem upload_wrapper_collision depth B (extracted : dir) w (nested : dir) n s s1 :
  stop_for_upgrade B s = Some s1 →
  wrapper_of extracted = Some (w, nested) → nested !! w = Some n →
  ∃ s' d' rest,
    handle depth (UploadBot (Some (Upload B (Some extracted)))) s
    = (s', Send 500 "Error processing upload.") ∧
    bots_dir s' !! B = Some d' ∧
    d' !! w = Some (Dir rest) ∧ rest !! w = Some n ∧
    bots_json s' = bots_json s.
Proof.
  intros Hstop Hwrap Hn. rewrite handle_upload. unfold api_upload. simpl.
  rewrite Hstop, Hwrap.
  destruct (auto_fix_throws extracted w nested n Hwrap Hn)
    as (d' & rest & e & -> & Hw & Hrest).
  eexists _, d', rest. split; [reflexivity|]. simpl.
  split; [apply lookup_insert_eq|].
  split; [done|]. split; [done|]. by apply (stop_for_upgrade_registry B).
Qed.

Lemma upload_wrapper_collision_witness :
  (stop_for_upgrade "my-bot" fresh = Some fresh ∧
   wrapper_of colliding_archive
   = Some ("my-bot", {[ "index.js" := File Blob;
                        "my-bot" := Dir {[ "util.js" := File Blob ]} ]})) ∧
  ∃ s' d' rest,
    handle 0 (UploadBot (Some (Upload "my-bot" (Some colliding_archive)))) fresh
    = (s', Send 500 "Error processing upload.") ∧
    bots_dir s' !! "my-bot" = Some d' ∧
    d' !! "my-bot" = Some (Dir rest) ∧
    rest !! "my-bot" = Some (Dir {[ "util.js" := File Blob ]}) ∧
    bots_json s' = bots_json fresh.
Proof.
  split; [split; vm_compute; reflexivity|].
  apply (upload_wrapper_collision 0 "my-bot" colliding_archive "my-bot"
           {[ "index.js" := File Blob;
              "my-bot" := Dir {[ "util.js" := File Blob ]} ]}
           (Dir {[ "util.js" := File Blob ]}) fresh fresh);
    vm_compute; reflexivity.
Defined.

(** The same upload, evaluated: the listing does not know the unit. *)
Example collision_trace :
  (handle 0 (UploadBot (Some (Upload "my-bot" (Some colliding_archive)))) fresh).2
  = Send 500 "Error processing upload." ∧
  api_bots (handle 0 (UploadBot (Some (Upload "my-bot" (Some colliding_archive)))) fresh).1
  = [].
Proof. split; vm_compute; reflexivity. Qed.

(** * Further properties of the panel *)

(** ** The listing *)

Lemma listing_names s : (api_bots s).*1 = (map_to_list (bots_json s)).*1.
Proof.
  unfold api_bots. simpl. generalize ((map_to_list (bots_json s)).*1).
  intros l. induction l as [|n l IH]; [done|].
  rewrite !fmap_cons. simpl. by f_equal.
Qed.

Lemma elem_of_listing_names s U :
  U ∈ (api_bots s).*1 ↔ is_Some (bots_json s !! U).
Proof.
  rewrite listing_names, list_elem_of_fmap. split.
  - intros ([k env] & -> & Hk). apply elem_of_map_to_list in Hk. eauto.
  - intros [env Henv]. exists (U, env). split; [done|].
    by apply elem_of_map_to_list.
Qed.

(** X1. The listing has exactly one entry per unit of the registry and
    none for any other name. *)
Theorem listing_one_entry_per_unit s :
  NoDup (api_bots s).*1 ∧
  ∀ U, U ∈ (api_bots s).*1 ↔ is_Some (bots_json s !! U).
Proof.
  split; [|apply elem_of_listing_names].
  rewrite listing_names. apply NoDup_fst_map_to_list.
Qed.

(** ** The running table and the children *)

(** X2. At every reachable state an entry of [runningBots] points at a
    child that was spawned in the directory of that unit and has not
    exited; so two units never share a child. *)
Theorem running_entry_is_live_child s U pid :
  reachable s → runningBots s !! U = Some pid →
  (∃ p, children s !! pid = Some p ∧ p_cwd p = U ∧ p_exited p = false) ∧
  (∀ V, runningBots s !! V = Some pid → V = U).
Proof.
  intros Hs HU. destruct (reachable_children_ok s Hs) as [_ Htable].
  destruct (Htable _ _ HU) as (p & Hp & Hcwd & Hex).
  split; [eauto|]. intros V HV.
  destruct (Htable _ _ HV) as (q & Hq & Hcwd' & _). congruence.
Qed.

Lemma running_entry_is_live_child_witness :
  (reachable echo_running ∧ runningBots echo_running !! "echo-bot" = Some 0) ∧
  (∃ p, children echo_running !! 0 = Some p ∧
        p_cwd p = "echo-bot" ∧ p_exited p = false) ∧
  (∀ V, runningBots echo_running !! V = Some 0 → V = "echo-bot").
Proof.
  assert (runningBots echo_running !! "echo-bot" = Some 0) as H
    by (vm_compute; reflexivity).
  split; [split; [apply echo_running_reachable | exact H]|].
  exact (running_entry_is_live_child echo_running "echo-bot" 0
           echo_running_reachable H).
Defined.

(** ** Stop and exit *)

Lemma handle_stop depth b s : handle depth (StopBot b) s = api_stop b s.
Proof. by destruct depth. Qed.



Lemma run_listeners_dir code ls s :
  bots_dir (foldl (run_listener code) s ls) = bots_dir s.
Proof.
  revert s. induction ls as [|l ls IH]; intros s; [done|].
  simpl. rewrite IH. by destruct l.
Qed.

(** X4. The exit of a child removes the entry of the child's unit from
    [runningBots] whichever child that entry points at: the listener
    deletes by name.  After an upgrade upload and a new start, the exit of
    the old child takes the new child's entry. *)
Theorem exit_removes_entry_by_name depth code s pid p :
  reachable s → children s !! pid = Some p → p_exited p = false →
  ∃ s', step depth (ChildClosed pid code) s = Some (s', NoResponse) ∧
        runningBots s' = delete (p_cwd p) (runningBots s) ∧
        bots_json s' = bots_json s ∧ bots_dir s' = bots_dir s.
Proof.
  intros Hs Hp Hex. destruct (reachable_children_ok s Hs) as [Hproc _].
  destruct (Hproc _ _ Hp) as [k Hk].
  destruct (child_closed_spec pid code s p _ k Hp Hex Hk)
    as (s' & Hclosed & Hrb & Hdb & _).
  exists s'. split; [simpl; by rewrite Hclosed|]. split; [done|]. split; [done|].
  unfold child_closed in Hclosed. rewrite Hp, Hex in Hclosed.
  injection Hclosed as <-. by rewrite run_listeners_dir.
Qed.

Lemma echo_upgraded_reachable : reachable echo_upgraded.
Proof. do 2 apply reachable_handle. apply echo_running_reachable. Qed.

Lemma exit_removes_entry_by_name_witness :
  (reachable echo_upgraded ∧
   runningBots echo_upgraded !! "echo-bot" = Some 1 ∧
   children echo_upgraded !! 0
   = Some (Process "index.js" "echo-bot" {[ "PATH" := "/usr/bin" ]} 1 false
                   [StartCleanup "echo-bot"])) ∧
  ∃ s', step 0 (ChildClosed 0 (Some 0%Z)) echo_upgraded = Some (s', NoResponse) ∧
        runningBots s' = delete "echo-bot" (runningBots echo_upgraded) ∧
        bots_json s' = bots_json echo_upgraded ∧
        bots_dir s' = bots_dir echo_upgraded.
Proof.
  assert (children echo_upgraded !! 0
          = Some (Process "index.js" "echo-bot" {[ "PATH" := "/usr/bin" ]} 1 false
                          [StartCleanup "echo-bot"])) as H
    by (vm_compute; reflexivity).
  split; [split; [apply echo_upgraded_reachable|split; [vm_compute; reflexivity|exact H]]|].
  exact (exit_removes_entry_by_name 0 (Some 0%Z) echo_upgraded 0 _
           echo_upgraded_reachable H eq_refl).
Defined.

(** In that state the second child is alive and listed as stopped once the
    first has exited. *)
Example upgraded_child_loses_entry :
  ∃ s p, run 0 [ChildClosed 0 (Some 0%Z)] echo_upgraded = Some s ∧
         children s !! 1 = Some p ∧ p_exited p = false ∧
         api_bots s = [("echo-bot", Stopped)].
Proof. do 2 eexists. split; [vm_compute; reflexivity|]. vm_compute. done. Qed.

Lemma filter_once_listeners c k :
  filter (λ l, persistent l = false) (replicate k (RestartOnce c))
  = replicate k (RestartOnce c).
Proof.
  induction k as [|k IH]; [done|]. cbn [replicate].
  rewrite filter_cons_True by done. by rewrite IH.
Qed.

(** X5. When a child exits, each restart observer it carries sets one
    timer and is dropped, the child is marked as exited, and no second exit
    of that child is observed. *)
Theorem exit_fires_restart_observers_once depth code s pid p :
  reachable s → children s !! pid = Some p → p_exited p = false →
  ∃ s' p',
    step depth (ChildClosed pid code) s = Some (s', NoResponse) ∧
    timers s' = timers s ++ replicate (length (restart_observers p)) (p_cwd p) ∧
    children s' !! pid = Some p' ∧ p_exited p' = true ∧
    restart_observers p' = [] ∧
    step depth (ChildClosed pid code) s' = None.
Proof.
  intros Hs Hp Hex. destruct (reachable_children_ok s Hs) as [Hproc _].
  destruct (Hproc _ _ Hp) as [k Hk].
  destruct (child_closed_spec pid code s p _ k Hp Hex Hk)
    as (s' & Hclosed & _ & _ & Htimers & Hch).
  assert (length (restart_observers p) = k) as Hlen.
  { unfold restart_observers. rewrite Hk.
    rewrite filter_cons_False by done.
    by rewrite filter_once_listeners, length_replicate. }
  eexists s', _. split; [simpl; by rewrite Hclosed|].
  split; [by rewrite Hlen|].
  split; [by rewrite Hch, list_lookup_alter_eq, Hp|].
  split; [done|]. split; [done|].
  simpl. unfold child_closed. by rewrite Hch, list_lookup_alter_eq, Hp.
Qed.

Lemma echo_restarting_reachable : reachable echo_restarting.
Proof. do 2 apply reachable_handle. apply echo_running_reachable. Qed.

Lemma exit_fires_restart_observers_once_witness :
  (reachable echo_restarting ∧
   children echo_restarting !! 0
   = Some (Process "index.js" "echo-bot" {[ "PATH" := "/usr/bin" ]} 2 false
                   [StartCleanup "echo-bot"; RestartOnce "echo-bot";
                    RestartOnce "echo-bot"])) ∧
  ∃ s' p',
    step 0 (ChildClosed 0 None) echo_restarting = Some (s', NoResponse) ∧
    timers s' = timers echo_restarting ++ replicate 2 "echo-bot" ∧
    children s' !! 0 = Some p' ∧ p_exited p' = true ∧
    restart_observers p' = [] ∧
    step 0 (ChildClosed 0 None) s' = None.
Proof.
  assert (children echo_restarting !! 0
          = Some (Process "index.js" "echo-bot" {[ "PATH" := "/usr/bin" ]} 2 false
                          [StartCleanup "echo-bot"; RestartOnce "echo-bot";
                           RestartOnce "echo-bot"])) as H
    by (vm_compute; reflexivity).
  split; [split; [apply echo_restarting_reachable|exact H]|].
  exact (exit_fires_restart_observers_once 0 None echo_restarting 0 _
           echo_restarting_reachable H eq_refl).
Defined.

(** ** Upload *)

(** X6. An upload for a unit that runs removes its entry from
    [runningBots] and asks its child to terminate before anything else,
    whatever the archive and whether or not the rest of the upload
    succeeds. *)
Theorem upload_stops_running_unit depth s U pid archive :
  runningBots s !! U = Some pid →
  runningBots (handle depth (UploadBot (Some (Upload U archive))) s).1
  = delete U (runningBots s) ∧
  children (handle depth (UploadBot (Some (Upload U archive))) s).1
  = children (kill pid s).
Proof.
  intros Hpid. rewrite handle_upload. unfold api_upload, stop_for_upgrade. simpl.
  rewrite (has_own _ _ _ Hpid), Hpid.
  destruct archive as [extracted|]; [|done].
  destruct (wrapper_of extracted); destruct (auto_fix extracted) as [d [e|]];
    simpl; unfold register; simpl;
    try (destruct (negb _)); done.
Qed.

Lemma upload_stops_running_unit_witness :
  runningBots echo_running !! "echo-bot" = Some 0 ∧
  runningBots (handle 0 (UploadBot (Some (Upload "echo-bot" None))) echo_running).1
  = delete "echo-bot" (runningBots echo_running) ∧
  children (handle 0 (UploadBot (Some (Upload "echo-bot" None))) echo_running).1
  = children (kill 0 echo_running).
Proof.
  assert (runningBots echo_running !! "echo-bot" = Some 0) as H
    by (vm_compute; reflexivity).
  split; [exact H|].
  exact (upload_stops_running_unit 0 echo_running "echo-bot" 0 None H).
Defined.

(** X7. An upload that succeeds leaves the unit registered: a unit the
    registry knew keeps its [env], a new one gets an empty [env], and no
    other record changes. *)
Theorem upload_registers_and_keeps_env depth s file B s' :
  reachable s → subject (UploadBot file) = Some B →
  handle depth (UploadBot file) s = (s', Redirect "/") →
  bots_json s' !! B = Some (envOverrides s B) ∧
  ∀ U, U ≠ B → bots_json s' !! U = bots_json s !! U.
Proof.
  intros Hs Hsub. rewrite handle_upload. unfold api_upload.
  destruct file as [f|]; [|done]. simpl in Hsub. injection Hsub as <-.
  destruct (stop_for_upgrade (up_name f) s) as [s1|] eqn:Hstop; [|done].
  destruct (stop_for_upgrade_names _ _ _ Hstop (reachable_names s Hs)) as [_ Hname].
  pose proof (stop_for_upgrade_registry _ _ _ Hstop) as Hdb.
  destruct (up_archive f) as [extracted|]; [|done].
  set (s2 := match wrapper_of extracted with Some _ => _ | None => s1 end).
  assert (bots_json s2 = bots_json s) as Hdb2
    by (subst s2; by destruct (wrapper_of extracted)).
  destruct (auto_fix extracted) as [d [e|]]; [done|].
  intros [= <-]. simpl. unfold register, envOverrides. simpl. rewrite Hdb2.
  unfold Js.has. rewrite Hname.
  destruct (bots_json s !! up_name f) as [env|] eqn:Henv; simpl.
  - split; [done|]. done.
  - split; [apply lookup_insert_eq|]. intros U HU. by rewrite lookup_insert_ne.
Qed.

Lemma upload_registers_and_keeps_env_witness :
  (reachable echo_configured ∧
   handle 0 (UploadBot (Some (Upload "echo-bot" (Some echo_archive)))) echo_configured
   = ((handle 0 (UploadBot (Some (Upload "echo-bot" (Some echo_archive))))
         echo_configured).1, Redirect "/")) ∧
  bots_json (handle 0 (UploadBot (Some (Upload "echo-bot" (Some echo_archive))))
               echo_configured).1 !! "echo-bot"
  = Some {[ "PATH" := "/opt/bot/bin" ]}.
Proof.
  assert (reachable echo_configured) as Hs
    by apply reachable_handle, echo_uploaded_reachable.
  assert (handle 0 (UploadBot (Some (Upload "echo-bot" (Some echo_archive))))
            echo_configured
          = ((handle 0 (UploadBot (Some (Upload "echo-bot" (Some echo_archive))))
                echo_configured).1, Redirect "/")) as H
    by (vm_compute; reflexivity).
  split; [by split|].
  exact (proj1 (upload_registers_and_keeps_env 0 echo_configured
                  (Some (Upload "echo-bot" (Some echo_archive))) "echo-bot" _
                  Hs eq_refl H)).
Defined.

Lemma upload_flattens_witness :
  (stop_for_upgrade "deep" fresh = Some fresh ∧
   wrapper_of {[ "a" := Dir {[ "b" := Dir {[ "c.js" := File Blob ]} ]} ]}
   = Some ("a", {[ "b" := Dir {[ "c.js" := File Blob ]} ]})) ∧
  ∃ s', handle 0 (UploadBot (Some (Upload "deep"
                   (Some {[ "a" := Dir {[ "b" := Dir {[ "c.js" := File Blob ]} ]} ]}))))
               fresh
        = (s', Redirect "/") ∧
        bots_dir s' !! "deep" = Some {[ "b" := Dir {[ "c.js" := File Blob ]} ]}.
Proof.
  split; [split; vm_compute; reflexivity|].
  apply (upload_flattens 0 "deep" _ "a" {[ "b" := Dir {[ "c.js" := File Blob ]} ]}
           fresh fresh); vm_compute; reflexivity.
Defined.

(** X9. An upload whose archive does not unpack to one lone directory
    replaces the unit's directory by exactly what was unpacked, whatever
    the directory held before; when the unit's name is one path segment,
    the directory of every other unit of such a name is as it was. *)
Theorem upload_replaces_directory depth B (extracted : dir) s s1 :
  stop_for_upgrade B s = Some s1 → wrapper_of extracted = None →
  ∃ s', handle depth (UploadBot (Some (Upload B (Some extracted)))) s
        = (s', Redirect "/") ∧
        bots_dir s' !! B = Some extracted ∧
        ∀ U, single_segment B = true → single_segment U = true → U ≠ B →
             bots_dir s' !! U = bots_dir s !! U.
Proof.
  intros Hstop Hwrap. rewrite handle_upload. unfold api_upload, auto_fix. simpl.
  rewrite Hstop, Hwrap. eexists. split; [done|].
  assert (bots_dir s1 = bots_dir s) as Hdir.
  { unfold stop_for_upgrade in Hstop.
    destruct (Js.has (runningBots s) B); [|by injection Hstop as <-].
    destruct (runningBots s !! B); [|done]. by injection Hstop as <-. }
  unfold register. destruct (negb _); simpl; rewrite Hdir;
    (split; [apply lookup_insert_eq|]); intros U _ _ HU;
    by rewrite lookup_insert_ne.
Qed.

Lemma upload_replaces_directory_witness :
  (stop_for_upgrade "echo-bot" echo_uploaded = Some echo_uploaded ∧
   wrapper_of plain_dir = None) ∧
  ∃ s', handle 0 (UploadBot (Some (Upload "echo-bot" (Some plain_dir)))) echo_uploaded
        = (s', Redirect "/") ∧
        bots_dir s' !! "echo-bot" = Some plain_dir ∧
        ∀ U, single_segment "echo-bot" = true → single_segment U = true →
             U ≠ "echo-bot" → bots_dir s' !! U = bots_dir echo_uploaded !! U.
Proof.
  split; [split; vm_compute; reflexivity|].
  apply (upload_replaces_directory 0 "echo-bot" plain_dir echo_uploaded echo_uploaded);
    vm_compute; reflexivity.
Defined.

(** ** Delete *)



(** ** Units do not interfere *)






(** ** Environment variables, further *)

(** X12. Setting or deleting a variable changes at most that key of that
    unit's [env]; it never touches [runningBots] or a child, so a running
    child keeps the environment it was started with. *)
Theorem env_writes_touch_one_key depth s U K value s' r :
  handle depth (SetEnv U (Some K) value) s = (s', r) ∨
  handle depth (DeleteEnv U (Some K)) s = (s', r) →
  runningBots s' = runningBots s ∧ children s' = children s ∧
  ∀ env, bots_json s !! U = Some env →
         ∃ env', bots_json s' !! U = Some env' ∧
                 ∀ K', K' ≠ K → env' !! K' = env !! K'.
Proof.
  rewrite handle_set_env, handle_delete_env. unfold api_env_set, api_env_delete.
  intros [H|H].
  - destruct value as [v|]; [|injection H as <- _; eauto].
    destruct (negb (Js.truthy K)); [injection H as <- _; eauto|].
    simpl in H. destruct (bots_json s !! U) as [env|] eqn:Henv.
    + injection H as <- _. simpl. split; [done|]. split; [done|].
      intros ? [= <-]. eexists. split; [apply lookup_insert_eq|].
      intros K' HK'. unfold Js.assign. case_decide; [done|].
      by rewrite lookup_insert_ne.
    + destruct (Js.inherited U); injection H as <- _; by rewrite Henv.
  - destruct (negb (Js.truthy K)); [injection H as <- _; eauto|].
    simpl in H. destruct (bots_json s !! U) as [env|] eqn:Henv.
    + destruct (negb (Js.has_string env K)).
      * injection H as <- _. rewrite Henv. eauto.
      * injection H as <- _. simpl. split; [done|]. split; [done|].
        intros ? [= <-]. eexists. split; [apply lookup_insert_eq|].
        intros K' HK'. by rewrite lookup_delete_ne.
    + destruct (Js.inherited U); injection H as <- _; by rewrite Henv.
Qed.

Lemma env_writes_touch_one_key_witness :
  handle 0 (SetEnv "echo-bot" (Some "TOKEN") (Some "abc")) echo_running
  = ((handle 0 (SetEnv "echo-bot" (Some "TOKEN") (Some "abc")) echo_running).1,
     Send 200 "Variable saved.") ∧
  runningBots (handle 0 (SetEnv "echo-bot" (Some "TOKEN") (Some "abc")) echo_running).1
  = runningBots echo_running ∧
  children (handle 0 (SetEnv "echo-bot" (Some "TOKEN") (Some "abc")) echo_running).1
  = children echo_running.
Proof.
  assert (handle 0 (SetEnv "echo-bot" (Some "TOKEN") (Some "abc")) echo_running
          = ((handle 0 (SetEnv "echo-bot" (Some "TOKEN") (Some "abc")) echo_running).1,
             Send 200 "Variable saved.")) as H by (vm_compute; reflexivity).
  split; [exact H|].
  destruct (env_writes_touch_one_key 0 echo_running "echo-bot" "TOKEN" (Some "abc")
              _ _ (or_introl H)) as (Hrb & Hch & _).
  by split.
Defined.

(** X13. A variable set for a registered unit that is not running is in
    the environment of the child the next start spawns. *)
Theorem set_env_then_start depth s U K V :
  reachable s → is_Some (bots_json s !! U) →
  K ≠ EmptyString → K ≠ "__proto__" →
  runningBots s !! U = None → is_Some (getMainScript (bots_dir s !! U)) →
  ∃ s1 s2 p,
    handle depth (SetEnv U (Some K) (Some V)) s = (s1, Send 200 "Variable saved.") ∧
    handle depth (StartBot U) s1 = (s2, Send 200 "Bot started") ∧
    runningBots s2 !! U = Some (length (children s)) ∧
    children s2 !! length (children s) = Some p ∧
    p_env p !! K = Some V.
Proof.
  intros Hs [env HU] HK Hproto Hrb [script Hscript].
  destruct (reachable_names s Hs) as [_ Hdb].
  destruct (Hdb _ _ HU) as [Hname _]. apply truthy_nonempty in HK.
  rewrite handle_set_env. unfold api_env_set. rewrite HK, HU. simpl.
  do 3 eexists. split; [done|].
  rewrite handle_start. unfold api_start, Js.has. simpl.
  rewrite Hrb, Hname, Hscript. split; [done|]. simpl.
  split; [apply lookup_insert_eq|].
  split; [by rewrite list_lookup_alter_eq, list_lookup_middle|].
  simpl. rewrite spread_lookup, lookup_insert_eq. simpl.
  unfold Js.assign. rewrite decide_False by done. by rewrite lookup_insert_eq.
Qed.

Lemma set_env_then_start_witness :
  (reachable echo_uploaded ∧ is_Some (bots_json echo_uploaded !! "echo-bot") ∧
   runningBots echo_uploaded !! "echo-bot" = None ∧
   is_Some (getMainScript (bots_dir echo_uploaded !! "echo-bot"))) ∧
  ∃ s1 s2 p,
    handle 0 (SetEnv "echo-bot" (Some "PATH") (Some "/opt/bot/bin")) echo_uploaded
    = (s1, Send 200 "Variable saved.") ∧
    handle 0 (StartBot "echo-bot") s1 = (s2, Send 200 "Bot started") ∧
    runningBots s2 !! "echo-bot" = Some (length (children echo_uploaded)) ∧
    children s2 !! length (children echo_uploaded) = Some p ∧
    p_env p !! "PATH" = Some "/opt/bot/bin".
Proof.
  assert (is_Some (bots_json echo_uploaded !! "echo-bot")) as H1
    by (vm_compute; eauto).
  assert (runningBots echo_uploaded !! "echo-bot" = None) as H2
    by (vm_compute; reflexivity).
  assert (is_Some (getMainScript (bots_dir echo_uploaded !! "echo-bot"))) as H3
    by (vm_compute; eauto).
  split; [split; [apply echo_uploaded_reachable|by repeat split]|].
  apply (set_env_then_start 0 echo_uploaded "echo-bot" "PATH" "/opt/bot/bin"
           echo_uploaded_reachable H1); [discriminate|discriminate|exact H2|exact H3].
Defined.

(** X14. No request for variables creates a unit or writes for one the
    registry does not know: for such a unit the variables are answered 404
    and set and delete leave the state as it was; and a missing or empty
    key, or a missing value, is refused with 400 for every unit. *)
Theorem env_requests_refused depth s U :
  (bots_json s !! U = None → Js.inherited U = false →
   api_env_get U s = Send 404 "Bot not found" ∧
   (∀ key value, (handle depth (SetEnv U key value) s).1 = s) ∧
   (∀ key, (handle depth (DeleteEnv U key) s).1 = s) ∧
   (∀ K V, K ≠ EmptyString →
           handle depth (SetEnv U (Some K) (Some V)) s = (s, Send 404 "Bot not found") ∧
           handle depth (DeleteEnv U (Some K)) s = (s, Send 404 "Variable not found."))) ∧
  (∀ value, handle depth (SetEnv U None value) s
            = (s, Send 400 "Key and Value are required.") ∧
            handle depth (SetEnv U (Some EmptyString) value) s
            = (s, Send 400 "Key and Value are required.")) ∧
  (∀ key, handle depth (SetEnv U key None) s
          = (s, Send 400 "Key and Value are required.")) ∧
  handle depth (DeleteEnv U None) s = (s, Send 400 "Key is required.") ∧
  handle depth (DeleteEnv U (Some EmptyString)) s = (s, Send 400 "Key is required.").
Proof.
  split; [|split; [|split; [|split]]].
  - intros HU Hname. split; [unfold api_env_get; by rewrite HU, Hname|].
    split; [|split].
    + intros key value. rewrite handle_set_env. unfold api_env_set.
      destruct key, value; try done. destruct (negb _); [done|].
      simpl. by rewrite HU, Hname.
    + intros key. rewrite handle_delete_env. unfold api_env_delete.
      destruct key; try done. destruct (negb _); [done|].
      simpl. by rewrite HU, Hname.
    + intros K V HK. apply truthy_nonempty in HK.
      rewrite handle_set_env, handle_delete_env.
      unfold api_env_set, api_env_delete. rewrite HK. simpl.
      by rewrite HU, Hname.
  - intros value. rewrite !handle_set_env. unfold api_env_set.
    by destruct value.
  - intros key. rewrite handle_set_env. unfold api_env_set. by destruct key.
  - by rewrite handle_delete_env.
  - by rewrite handle_delete_env.
Qed.

Lemma env_requests_refused_witness :
  (bots_json fresh !! "nobody" = None ∧ Js.inherited "nobody" = false) ∧
  api_env_get "nobody" fresh = Send 404 "Bot not found" ∧
  handle 0 (SetEnv "nobody" (Some "K") (Some "V")) fresh
  = (fresh, Send 404 "Bot not found").
Proof.
  assert (bots_json fresh !! "nobody" = None) as H1 by (vm_compute; reflexivity).
  assert (Js.inherited "nobody" = false) as H2 by (vm_compute; reflexivity).
  split; [by split|].
  destruct (proj1 (env_requests_refused 0 fresh "nobody") H1 H2)
    as (Hget & _ & _ & Hset).
  split; [exact Hget|]. apply (Hset "K" "V"). discriminate.
Defined.

(** ** Restart, further *)

Lemma add_routes_frame n s :
  runningBots (Nat.iter n add_route s) = runningBots s ∧
  bots_json (Nat.iter n add_route s) = bots_json s ∧
  bots_dir (Nat.iter n add_route s) = bots_dir s ∧
  children (Nat.iter n add_route s) = children s ∧
  timers (Nat.iter n add_route s) = timers s ∧
  noop_routes (Nat.iter n add_route s) = n + noop_routes s.
Proof.
  induction n as [|n IH]; [done|]. simpl.
  destruct IH as (-> & -> & -> & -> & -> & ->). done.
Qed.

Lemma handle_restart_unwinds depth U s :
  Js.has (runningBots s) U = false →
  handle depth (RestartBot U) s = (Nat.iter (S depth) add_route s, StackExhausted).
Proof.
  revert s. induction depth as [|d IH]; intros s Hs; simpl; rewrite Hs; [done|].
  unfold redispatch. rewrite IH by done.
  by rewrite <- Nat.iter_succ_r.
Qed.

(** X15. Restarting a unit that is not running never starts it: the
    request is dispatched to the restart route again and again until the
    stack is exhausted, leaving one more route per dispatch and nothing
    else. *)
Theorem restart_stopped_unit depth s U :
  runningBots s !! U = None → Js.inherited U = false →
  ∃ s', handle depth (RestartBot U) s = (s', StackExhausted) ∧
        runningBots s' = runningBots s ∧ children s' = children s ∧
        bots_json s' = bots_json s ∧ bots_dir s' = bots_dir s ∧
        timers s' = timers s ∧
        noop_routes s' = S depth + noop_routes s.
Proof.
  intros Hrb Hname. eexists. split.
  - apply handle_restart_unwinds. unfold Js.has. by rewrite Hrb.
  - destruct (add_routes_frame (S depth) s) as (H1 & H2 & H3 & H4 & H5 & H6).
    by rewrite H1, H2, H3, H4, H5, H6.
Qed.

Lemma restart_stopped_unit_witness :
  (runningBots echo_uploaded !! "echo-bot" = None ∧
   Js.inherited "echo-bot" = false ∧
   is_Some (getMainScript (bots_dir echo_uploaded !! "echo-bot"))) ∧
  ∃ s', handle 5 (RestartBot "echo-bot") echo_uploaded = (s', StackExhausted) ∧
        runningBots s' = runningBots echo_uploaded ∧
        children s' = children echo_uploaded ∧
        bots_json s' = bots_json echo_uploaded ∧
        bots_dir s' = bots_dir echo_uploaded ∧
        timers s' = timers echo_uploaded ∧
        noop_routes s' = 6 + noop_routes echo_uploaded.
Proof.
  split; [split; [|split]; vm_compute; eauto|].
  apply (restart_stopped_unit 5 echo_uploaded "echo-bot"); vm_compute; reflexivity.
Defined.

(** X16. When the timer of a restart elapses and the unit runs again by
    then, the dispatched restart request treats the new child like the old
    one: it attaches a restart observer to it and asks it to terminate. *)
Theorem timer_hits_running_unit depth s i U pid p :
  timers s !! i = Some U → runningBots s !! U = Some pid →
  children s !! pid = Some p →
  ∃ s', step depth (TimerElapsed i) s = Some (s', NoResponse) ∧
        runningBots s' = runningBots s ∧
        timers s' = delete i (timers s) ∧
        children s' !! pid
        = Some (Process (p_script p) (p_cwd p) (p_env p) (S (p_kills p))
                        (p_exited p) (p_close p ++ [RestartOnce U])).
Proof.
  intros Hi Hpid Hp. simpl. unfold timer_elapsed, redispatch. rewrite Hi.
  set (s0 := add_route (set_timers (delete i) s)).
  assert (runningBots s0 !! U = Some pid) as Hpid0 by done.
  rewrite (handle_restart_running depth U pid s0 Hpid0).
  eexists. split; [done|]. split; [done|]. split; [done|].
  by apply restart_running_child.
Qed.

Lemma timer_hits_running_unit_witness :
  (timers echo_raced !! 0 = Some "echo-bot" ∧
   runningBots echo_raced !! "echo-bot" = Some 1 ∧
   children echo_raced !! 1
   = Some (Process "index.js" "echo-bot" {[ "PATH" := "/usr/bin" ]} 0 false
                   [StartCleanup "echo-bot"])) ∧
  ∃ s', step 0 (TimerElapsed 0) echo_raced = Some (s', NoResponse) ∧
        runningBots s' = runningBots echo_raced ∧
        timers s' = delete 0 (timers echo_raced) ∧
        children s' !! 1
        = Some (Process "index.js" "echo-bot" {[ "PATH" := "/usr/bin" ]} 1 false
                        ([StartCleanup "echo-bot"] ++ [RestartOnce "echo-bot"])).
Proof.
  assert (timers echo_raced !! 0 = Some "echo-bot") as H1 by (vm_compute; reflexivity).
  assert (runningBots echo_raced !! "echo-bot" = Some 1) as H2
    by (vm_compute; reflexivity).
  assert (children echo_raced !! 1
          = Some (Process "index.js" "echo-bot" {[ "PATH" := "/usr/bin" ]} 0 false
                          [StartCleanup "echo-bot"])) as H3
    by (vm_compute; reflexivity).
  split; [by repeat split|].
  exact (timer_hits_running_unit 0 echo_raced 0 "echo-bot" 1 _ H1 H2 H3).
Defined.

(** ** Install *)

Lemma handle_install depth b s : handle depth (InstallBot b) s = api_install b s.
Proof. by destruct depth. Qed.

(** X17. By the time it answers, an install request has changed neither
    [runningBots] nor the children nor the registry; for a name that is not
    inherited it is accepted exactly when the unit has no entry and its
    directory has a package.json; an accepted request has spawned one
    [npm install] for the unit and logged one line, and a refused request
    leaves the state as it was. *)
Theorem install_guards depth s U :
  Js.inherited U = false →
  runningBots (handle depth (InstallBot U) s).1 = runningBots s ∧
  children (handle depth (InstallBot U) s).1 = children s ∧
  bots_json (handle depth (InstallBot U) s).1 = bots_json s ∧
  ((handle depth (InstallBot U) s).2 = Send 200 "Install process started."
   ↔ runningBots s !! U = None ∧
     Fs.existsSync (bots_dir s !! U) "package.json" = true) ∧
  ((handle depth (InstallBot U) s).2 = Send 200 "Install process started." →
   npm_installs (handle depth (InstallBot U) s).1 = npm_installs s ++ [U] ∧
   ∃ line, emitted (handle depth (InstallBot U) s).1 = emitted s ++ [Log U line]) ∧
  ((handle depth (InstallBot U) s).2 ≠ Send 200 "Install process started." →
   (handle depth (InstallBot U) s).1 = s).
Proof.
  intros Hname. rewrite handle_install. unfold api_install, Js.has. rewrite Hname.
  destruct (runningBots s !! U) as [pid|]; simpl.
  - repeat split; try done. by intros [? _].
  - destruct (Fs.existsSync (bots_dir s !! U) "package.json"); simpl.
    + repeat split; try done. eauto.
    + repeat split; try done. by intros [_ ?].
Qed.

Lemma install_guards_witness :
  (Js.inherited "ghost" = false ∧ Js.inherited "echo-bot" = false) ∧
  ((handle 0 (InstallBot "ghost") ghost_disk).2 = Send 200 "Install process started." ∧
   npm_installs (handle 0 (InstallBot "ghost") ghost_disk).1
   = npm_installs ghost_disk ++ ["ghost"] ∧
   runningBots (handle 0 (InstallBot "ghost") ghost_disk).1 = runningBots ghost_disk) ∧
  ((handle 0 (InstallBot "echo-bot") echo_running).2
   = Send 400 "Bot is running. Stop it first." ∧
   (handle 0 (InstallBot "echo-bot") echo_running).1 = echo_running).
Proof.
  assert (Js.inherited "ghost" = false) as Hg by (vm_compute; reflexivity).
  assert (Js.inherited "echo-bot" = false) as He by (vm_compute; reflexivity).
  split; [by split|]. split.
  - destruct (install_guards 0 ghost_disk "ghost" Hg)
      as (Hrb & _ & _ & Hiff & Hok & _).
    assert ((handle 0 (InstallBot "ghost") ghost_disk).2
            = Send 200 "Install process started.") as Hr.
    { apply Hiff. split; vm_compute; reflexivity. }
    split; [exact Hr|]. split; [exact (proj1 (Hok Hr))|exact Hrb].
  - split; [vm_compute; reflexivity|].
    destruct (install_guards 0 echo_running "echo-bot" He) as (_ & _ & _ & _ & _ & Hno).
    apply Hno. vm_compute. discriminate.
Defined.

(** ** Start, further *)

(** X18. A start request either is refused (400 or 404) and leaves the
    state as it was, or spawns exactly one child: the children so far are
    untouched, the new child runs the script [getMainScript] found in the
    unit's directory, has not exited, carries the one cleanup listener, and
    the unit's entry points at it. *)
Theorem start_all_or_nothing depth s U s' r :
  handle depth (StartBot U) s = (s', r) →
  (s' = s ∧ (r = Send 400 "Bot is already running." ∨
             r = Send 404 "Bot main script not found.")) ∨
  (r = Send 200 "Bot started" ∧
   length (children s') = S (length (children s)) ∧
   (∀ pid, pid < length (children s) → children s' !! pid = children s !! pid) ∧
   runningBots s' = <[U:=length (children s)]> (runningBots s) ∧
   bots_json s' = bots_json s ∧ bots_dir s' = bots_dir s ∧
   ∃ p, children s' !! length (children s) = Some p ∧
        getMainScript (bots_dir s !! U) = Some (p_script p) ∧
        p_cwd p = U ∧ p_exited p = false ∧ p_kills p = 0 ∧
        p_close p = [StartCleanup U]).
Proof.
  rewrite handle_start. unfold api_start.
  destruct (Js.has (runningBots s) U); [intros [= <- <-]; left; eauto|].
  destruct (getMainScript (bots_dir s !! U)) as [script|];
    [|intros [= <- <-]; left; eauto].
  intros [= <- <-]. right. split; [done|]. simpl.
  split; [rewrite length_alter, length_app; simpl; lia|].
  split.
  { intros pid Hpid. rewrite list_lookup_alter_ne by lia. by apply lookup_app_l. }
  split; [done|]. split; [done|]. split; [done|].
  eexists. split; [by rewrite list_lookup_alter_eq, list_lookup_middle|]. done.
Qed.

Lemma start_all_or_nothing_witness :
  handle 0 (StartBot "echo-bot") echo_uploaded
  = (echo_running, Send 200 "Bot started") ∧
  length (children echo_running) = S (length (children echo_uploaded)) ∧
  runningBots echo_running
  = <["echo-bot":=length (children echo_uploaded)]> (runningBots echo_uploaded).
Proof.
  assert (handle 0 (StartBot "echo-bot") echo_uploaded
          = (echo_running, Send 200 "Bot started")) as H by (vm_compute; reflexivity).
  split; [exact H|].
  destruct (start_all_or_nothing 0 echo_uploaded "echo-bot" _ _ H)
    as [[_ [Hr|Hr]]|(_ & Hlen & _ & Hrb & _)]; [discriminate Hr|discriminate Hr|].
  by split.
Defined.

(** X19. [getMainScript] prefers a non-empty [main] of a package.json that
    parses to anything in the directory; without one (no package.json, one
    that does not parse, no [main] or an empty one) it takes index.js if the
    directory has it, else bot.js if the directory has it, else nothing. *)
Theorem getMainScript_order (botPath : option dir) :
  (∀ main, manifest_main botPath = Some main → main ≠ EmptyString →
           getMainScript botPath = Some main) ∧
  ((∀ main, manifest_main botPath = Some main → main = EmptyString) →
   getMainScript botPath =
   if Fs.existsSync botPath "index.js" then Some "index.js"
   else if Fs.existsSync botPath "bot.js" then Some "bot.js"
   else None).
Proof.
  split.
  - intros main Hmain Hne. apply truthy_nonempty in Hne.
    unfold getMainScript. rewrite Hmain, Hne.
    assert (Fs.existsSync botPath "package.json" = true) as ->; [|done].
    unfold manifest_main, Fs.existsSync in *.
    destruct botPath as [d|]; [|done]. by destruct (d !! "package.json").
  - intros Hnone. unfold getMainScript.
    destruct (Fs.existsSync botPath "package.json"); [|done].
    destruct (manifest_main botPath) as [main|]; [|done].
    destruct (Js.truthy main) eqn:Htruthy; [|done].
    apply truthy_nonempty in Htruthy. by destruct (Htruthy (Hnone _ eq_refl)).
Qed.

Lemma getMainScript_order_witness :
  (manifest_main (Some ghost_dir) = Some "missing.js" ∧
   getMainScript (Some ghost_dir) = Some "missing.js") ∧
  ((∀ main, manifest_main (Some plain_dir) = Some main → main = EmptyString) ∧
   getMainScript (Some plain_dir) = Some "index.js").
Proof.
  split.
  - split; [vm_compute; reflexivity|].
    apply (proj1 (getMainScript_order (Some ghost_dir)) "missing.js");
      [vm_compute; reflexivity|discriminate].
  - assert (∀ main, manifest_main (Some plain_dir) = Some main → main = EmptyString)
      as H by (intros main; vm_compute; discriminate).
    split; [exact H|].
    exact (proj2 (getMainScript_order (Some plain_dir)) H).
Defined.

(** ** Names inherited from Object.prototype *)

(** X20. At every reachable state a name inherited from Object.prototype
    (constructor, toString, __proto__, ...) stands for no unit and cannot
    become one: the listing does not have it, start, install and delete
    answer that it is running, stop and restart throw, an upload under that
    name fails with 500 and all of them leave the tables and directories as
    they were, while its variables are answered with an empty mapping. *)
Theorem inherited_name_is_no_unit depth s N :
  reachable s → Js.inherited N = true →
  (N ∉ (api_bots s).*1) ∧
  runningBots s !! N = None ∧
  handle depth (StartBot N) s = (s, Send 400 "Bot is already running.") ∧
  handle depth (InstallBot N) s = (s, Send 400 "Bot is running. Stop it first.") ∧
  handle depth (DeleteBot N) s = (s, Send 400 "Bot is running. Stop it first.") ∧
  (∃ e, handle depth (StopBot N) s = (s, Uncaught e)) ∧
  (∃ e, handle depth (RestartBot N) s = (s, Uncaught e)) ∧
  (∀ archive,
     (handle depth (UploadBot (Some (Upload N archive))) s).2
     = Send 500 "Error processing upload." ∧
     tables (handle depth (UploadBot (Some (Upload N archive))) s).1 = tables s ∧
     shape (handle depth (UploadBot (Some (Upload N archive))) s).1 = shape s ∧
     bots_dir (handle depth (UploadBot (Some (Upload N archive))) s).1 = bots_dir s) ∧
  api_env_get N s = JsonEnv ∅.
Proof.
  intros Hs Hname. destruct (reachable_names s Hs) as [Hrb Hdb].
  assert (runningBots s !! N = None) as Hnone.
  { destruct (runningBots s !! N) as [pid|] eqn:H; [|done].
    apply Hrb in H. congruence. }
  assert (bots_json s !! N = None) as Hunreg.
  { destruct (bots_json s !! N) as [env|] eqn:H; [|done].
    apply Hdb in H as [H _]. congruence. }
  assert (Js.has (runningBots s) N = true) as Hhas
    by (unfold Js.has; by rewrite Hnone).
  split; [rewrite elem_of_listing_names, Hunreg; by intros [? ?]|].
  split; [done|].
  split; [rewrite handle_start; unfold api_start; by rewrite Hhas|].
  split; [rewrite handle_install; unfold api_install; by rewrite Hhas|].
  split; [rewrite handle_delete; unfold api_delete; by rewrite Hhas|].
  split; [rewrite handle_stop; unfold api_stop; rewrite Hhas, Hnone; simpl; eauto|].
  split.
  { destruct depth; simpl; rewrite Hhas, Hnone; eauto. }
  split.
  { intros archive. rewrite handle_upload. unfold api_upload, stop_for_upgrade.
    simpl. by rewrite Hhas, Hnone. }
  unfold api_env_get. by rewrite Hunreg, Hname.
Qed.

Lemma inherited_name_is_no_unit_witness :
  (reachable echo_running ∧ Js.inherited "constructor" = true) ∧
  handle 0 (StartBot "constructor") echo_running
  = (echo_running, Send 400 "Bot is already running.") ∧
  (handle 0 (UploadBot (Some (Upload "constructor" (Some echo_archive)))) echo_running).2
  = Send 500 "Error processing upload.".
Proof.
  assert (Js.inherited "constructor" = true) as H by (vm_compute; reflexivity).
  split; [split; [apply echo_running_reachable|exact H]|].
  destruct (inherited_name_is_no_unit 0 echo_running "constructor"
              echo_running_reachable H)
    as (_ & _ & Hstart & _ & _ & _ & _ & Hupload & _).
  split; [exact Hstart|]. apply (Hupload (Some echo_archive)).
Defined.
